(** * favicon-generator: the icon pipeline of [src/app/api/generate/route.ts]

    A shallow embedding of the request handler [POST] and of the corner
    mask [applyRoundedCorners], followed by the properties the
    specification states about them.

    Conventions.
    - A Node [Buffer] is a [list byte]; an index is a [Z] as the code
      computes it, converted with [Z.to_nat] at the access.  Writing out of
      range (or at a negative index) leaves a typed array unchanged.
    - [width], [height], [radius] and the pixel coordinates are integers
      ([Z]); subtractions such as [width - r - 1] may go negative, as in
      the source.  The engine computes on binary64 numbers:
      [Double.applyRoundedCorners] is the mask with its corner tests on
      primitive floats, for any radius a double can hold.  For sides and
      radius up to [2^25] ([exactRange]) every intermediate value is an
      integer below [2^53], the float arithmetic is exact, and the two
      masks are the same function ([applyRoundedCorners_on_doubles]);
      outside this range they differ ([huge_radius_keeps_corner]).
    - A JavaScript number that comes from the request (the radius field) is
      [NaN], an infinity or a finite value; finite values are exact
      rationals ([Q]).  The module [Double] repeats the computation of the
      radius on binary64 floats.  For integer requests the two give the
      same effective radius for every reference size and every square
      side of the tables; for other requests the double product can fall
      just below a tie of the exact one
      ([tie_request_rounds_down_on_doubles]).
    - The libraries the handler calls (sharp, to-ico, JSZip, the string to
      number conversion) are parameters of the section [Handler]. *)

From Stdlib Require Import ZArith QArith Qround Lia ZifyBool String.
From Stdlib.Strings Require Import Byte.
From Stdlib Require Floats Uint63.
From stdpp Require Import base list.

Local Open Scope Z_scope.

(** ** Buffers *)

Module Buf.

Abbreviation t := (list byte).

(** [buf[i]] for an integer index. *)
Definition get (b : t) (i : Z) : option byte :=
  if 0 <=? i then b !! Z.to_nat i else None.

(** [buf[i] = v]: ignored when [i] is not an index of the buffer. *)
Definition set (b : t) (i : Z) (v : byte) : t :=
  if 0 <=? i then <[Z.to_nat i := v]> b else b.

End Buf.

(** ** The corner mask *)

(** The body of the two loops for one pixel: the four corner tests, each
    of which may raise [shouldBeTransparent].  Here on integers;
    [Double.shouldBeTransparent] below is the same on doubles, and the two
    agree in [exactRange]. *)
Definition shouldBeTransparent (width height r x y : Z) : bool :=
  let s := false in
  (* top left *)
  let s := if (x <? r) && (y <? r) then
             let dx := r - x in
             let dy := r - y in
             if dx * dx + dy * dy >? r * r then true else s
           else s in
  (* top right *)
  let s := if (x >=? width - r) && (y <? r) then
             let dx := x - (width - r - 1) in
             let dy := r - y in
             if dx * dx + dy * dy >? r * r then true else s
           else s in
  (* bottom left *)
  let s := if (x <? r) && (y >=? height - r) then
             let dx := r - x in
             let dy := y - (height - r - 1) in
             if dx * dx + dy * dy >? r * r then true else s
           else s in
  (* bottom right *)
  let s := if (x >=? width - r) && (y >=? height - r) then
             let dx := x - (width - r - 1) in
             let dy := y - (height - r - 1) in
             if dx * dx + dy * dy >? r * r then true else s
           else s in
  s.

Definition maskPixel (width height r : Z) (result : Buf.t) (y x : Z) : Buf.t :=
  let idx := (y * width + x) * 4 in
  if shouldBeTransparent width height r x y
  then Buf.set result (idx + 3) x00
  else result.

Definition maskRow (width height r : Z) (result : Buf.t) (y : Z) : Buf.t :=
  foldl (λ res x, maskPixel width height r res y x) result (seqZ 0 width).

Definition applyRoundedCorners (data : Buf.t) (width height radius : Z) : Buf.t :=
  if radius =? 0 then data
  else
    let result := data in
    let r := radius in
    foldl (maskRow width height r) result (seqZ 0 height).

(** Reading one channel of the pixel [(x, y)] of a [width]-wide RGBA8
    raster: channel 0, 1, 2, 3 is R, G, B, alpha. *)
Definition channel (b : Buf.t) (width x y c : Z) : option byte :=
  Buf.get b ((y * width + x) * 4 + c).

Definition alpha (b : Buf.t) (width x y : Z) : option byte :=
  channel b width x y 3.

(** The byte offsets the loops write: the alpha offset of a pixel of the
    grid that one of the corner tests flags. *)
Definition writes (width height r : Z) (k : nat) (y x : Z) : bool :=
  shouldBeTransparent width height r x y && ((y * width + x) * 4 + 3 =? Z.of_nat k).

Definition rowWrites (width height r : Z) (k : nat) (y : Z) : bool :=
  existsb (writes width height r k y) (seqZ 0 width).

Definition masked (width height r : Z) (k : nat) : bool :=
  existsb (rowWrites width height r k) (seqZ 0 height).

Definition zeroed (o : option byte) : option byte := (λ _, x00) <$> o.

(** ** The rounded rectangle in the words of the specification

    The four corner squares, each with its own local offsets [dx], [dy];
    a pixel is cut when it lies in some corner square and is strictly
    outside that square's arc. *)

Inductive Corner := TopLeft | TopRight | BottomLeft | BottomRight.

Definition inSquare (c : Corner) (width height r x y : Z) : Prop :=
  match c with
  | TopLeft => x < r ∧ y < r
  | TopRight => x >= width - r ∧ y < r
  | BottomLeft => x < r ∧ y >= height - r
  | BottomRight => x >= width - r ∧ y >= height - r
  end.

Definition cornerDx (c : Corner) (width r x : Z) : Z :=
  match c with
  | TopLeft | BottomLeft => r - x
  | TopRight | BottomRight => x - (width - r - 1)
  end.

Definition cornerDy (c : Corner) (height r y : Z) : Z :=
  match c with
  | TopLeft | TopRight => r - y
  | BottomLeft | BottomRight => y - (height - r - 1)
  end.

Definition dist2 (c : Corner) (width height r x y : Z) : Z :=
  cornerDx c width r x * cornerDx c width r x
  + cornerDy c height r y * cornerDy c height r y.

Definition outsideArc (width height r x y : Z) : Prop :=
  ∃ c, inSquare c width height r x y ∧ dist2 c width height r x y > r * r.

Definition onGrid (width height x y : Z) : Prop :=
  0 <= x < width ∧ 0 <= y < height.

(** A buffer of [width * height] RGBA8 pixels. *)
Definition rgba8 (data : Buf.t) (width height : Z) : Prop :=
  Z.of_nat (length data) = width * height * 4.

(** The sizes and radii for which every number the loops compute (the
    index [(y * width + x) * 4 + 3], [width - r - 1], [dx * dx + dy * dy],
    [r * r]) is an integer below [2^53] in absolute value, so that the
    engine's binary64 arithmetic is exact. *)
Definition exactRange (width height r : Z) : Prop :=
  0 <= width <= 2 ^ 25 ∧ 0 <= height <= 2 ^ 25 ∧ 0 <= r <= 2 ^ 25.

(** ** JavaScript numbers of the request *)

Inductive JSNumber :=
| NaN
| PosInfinity
| NegInfinity
| Finite (q : Q).

(** The values that [||] skips: [NaN] and zero (of either sign). *)
Definition falsy (n : JSNumber) : bool :=
  match n with
  | NaN => true
  | Finite q => Qeq_bool q 0
  | PosInfinity | NegInfinity => false
  end.

(** [a || b] on numbers. *)
Definition js_or (a b : JSNumber) : JSNumber :=
  if falsy a then b else a.

Definition Math_min (a b : JSNumber) : JSNumber :=
  match a, b with
  | NaN, _ | _, NaN => NaN
  | NegInfinity, _ | _, NegInfinity => NegInfinity
  | PosInfinity, n | n, PosInfinity => n
  | Finite p, Finite q => Finite (if Qle_bool p q then p else q)
  end.

Definition Math_max (a b : JSNumber) : JSNumber :=
  match a, b with
  | NaN, _ | _, NaN => NaN
  | PosInfinity, _ | _, PosInfinity => PosInfinity
  | NegInfinity, n | n, NegInfinity => n
  | Finite p, Finite q => Finite (if Qle_bool p q then q else p)
  end.

(** The rational a number denotes; only used on numbers known to be
    finite (see [clampRadius_finite]). *)
Definition valueOf (n : JSNumber) : Q :=
  match n with
  | Finite q => q
  | _ => 0
  end.

(** [Math.round]: the nearest integer, a tie going up. *)
Definition Math_round (q : Q) : Z := Qfloor (q + (1 # 2)).

Definition Math_floor (q : Q) : Z := Qfloor q.

(** ** The radius of a variant *)

(** [Math.max(0, Math.min(256, n || 40))], for [n = Number(radiusStr)]. *)
Definition clampRadius (n : JSNumber) : JSNumber :=
  Math_max (Finite 0) (Math_min (Finite 256) (js_or n (Finite 40))).

(** [metadata.width || 512]: sharp reports a dimension as a natural
    number or not at all. *)
Definition orDefault (v : option N) (d : Z) : Z :=
  match v with
  | Some n => if (n =? 0)%N then d else Z.of_N n
  | None => d
  end.

Definition previewBaseSize (width height : option N) : Z :=
  let originalWidth := orDefault width 512 in
  let originalHeight := orDefault height 512 in
  Z.min (Z.min originalWidth originalHeight) 192.

(** Lines 119 and 120 in exact arithmetic.  On doubles
    ([Double.scaledRadiusOf], [Double.effectiveRadiusOf]) the quotient is
    rounded before the product; for integer radii the effective radius is
    the same on the reference sizes and sides of the handler. *)
Definition scaledRadius (radius : Q) (previewBase targetWidth targetHeight : Z) : Z :=
  Math_round (radius * (inject_Z (Z.min targetWidth targetHeight) / inject_Z previewBase)).

Definition effectiveRadius (radius : Q) (previewBase targetWidth targetHeight
                            infoWidth infoHeight : Z) : Z :=
  Z.min (scaledRadius radius previewBase targetWidth targetHeight)
        (Math_floor (inject_Z (Z.min infoWidth infoHeight) / 2)).

(** The rounding of the specification: [k] is the integer nearest to [q],
    a tie going to the larger one. *)
Definition nearest (q : Q) (k : Z) : Prop :=
  (inject_Z k - (1 # 2) <= q)%Q ∧ (q < inject_Z k + (1 # 2))%Q.

(** ** The same radius on IEEE doubles

    The product [radius * (min / previewBaseSize)] and [Math.round] as the
    engine computes them, on primitive binary64 floats, for a square
    variant and an integer request.  Integers travel as 63-bit machine
    integers. *)

Module Double.

Import PrimFloat Uint63.
Local Open Scope uint63_scope.

(** [frshiftexp x = (f, e)] with [x = f * 2^(e - bias)] and
    [1/2 <= f < 1]. *)
Definition bias : int := 2101.

(** [Math.round] of a finite double [x >= 0] below [2^62]: with
    [m = f * 2^53] an integer, [x = m * 2^(e - bias - 53)]; when the
    exponent is negative, [x = m / 2^sh] and the nearest integer, a tie
    going up, is [floor ((m + 2^(sh-1)) / 2^sh)]. *)
Definition Math_round (x : float) : int :=
  let (f, e) := frshiftexp x in
  let m := normfr_mantissa f in
  if bias + 53 <=? e then m << (e - bias - 53)
  else
    let sh := bias + 53 - e in
    if 54 <? sh then 0
    else (m + (1 << (sh - 1))) >> sh.

Definition scaledRadius (radius previewBase side : int) : int :=
  Math_round (PrimFloat.mul (of_uint63 radius)
                (PrimFloat.div (of_uint63 side) (of_uint63 previewBase))).

Definition effectiveRadius (radius previewBase side : int) : int :=
  let scaled := scaledRadius radius previewBase side in
  let half := side / 2 in
  if scaled <=? half then scaled else half.

(** The formula of the specification in integer arithmetic:
    [round(r * s / b) = floor((2 r s + b) / (2 b))]. *)
Definition exact (radius previewBase side : int) : int :=
  let scaled := (2 * radius * side + previewBase) / (2 * previewBase) in
  let half := side / 2 in
  if scaled <=? half then scaled else half.

(** The integer requests, the reference sizes and the sides of the square
    variants. *)
Definition requests : list int := of_Z <$> seqZ 0 257.
Definition bases : list int := of_Z <$> seqZ 1 192.
Definition sides : list int := of_Z <$> [16; 32; 48; 180; 192; 512]%Z.

(** *** A request that is no integer

    Lines 119 and 120 for any double [radius]. *)

Definition scaledRadiusOf (radius : float) (previewBase side : int) : int :=
  Math_round (PrimFloat.mul radius
                (PrimFloat.div (of_uint63 side) (of_uint63 previewBase))).

Definition effectiveRadiusOf (radius : float) (previewBase side : int) : int :=
  let scaled := scaledRadiusOf radius previewBase side in
  let half := side / 2 in
  if scaled <=? half then scaled else half.

(** *** The corner mask on doubles

    [applyRoundedCorners] with the radius a double and the corner tests
    computed on doubles.  The sides of the raster and the loop counters
    are integers, converted where the tests use them. *)

(** An integer from 0 to [2^53] as a double. *)
Definition number (z : Z) : float := of_uint63 (of_Z z).

(** [a > b] and [a >= b] on doubles. *)
Definition gtb (a b : float) : bool := PrimFloat.ltb b a.
Definition geb (a b : float) : bool := PrimFloat.leb b a.

Definition shouldBeTransparent (width height r x y : float) : bool :=
  let s := false in
  (* top left *)
  let s := if PrimFloat.ltb x r && PrimFloat.ltb y r then
             let dx := (r - x)%float in
             let dy := (r - y)%float in
             if gtb (dx * dx + dy * dy)%float (r * r)%float then true else s
           else s in
  (* top right *)
  let s := if geb x (width - r)%float && PrimFloat.ltb y r then
             let dx := (x - (width - r - 1))%float in
             let dy := (r - y)%float in
             if gtb (dx * dx + dy * dy)%float (r * r)%float then true else s
           else s in
  (* bottom left *)
  let s := if PrimFloat.ltb x r && geb y (height - r)%float then
             let dx := (r - x)%float in
             let dy := (y - (height - r - 1))%float in
             if gtb (dx * dx + dy * dy)%float (r * r)%float then true else s
           else s in
  (* bottom right *)
  let s := if geb x (width - r)%float && geb y (height - r)%float then
             let dx := (x - (width - r - 1))%float in
             let dy := (y - (height - r - 1))%float in
             if gtb (dx * dx + dy * dy)%float (r * r)%float then true else s
           else s in
  s.

(** The index of the alpha byte as the loop computes it. *)
Definition alphaIndex (width x y : float) : float :=
  ((y * width + x) * 4 + 3)%float.

Definition maskPixel (width height : Z) (r : float) (result : Buf.t) (y x : Z) : Buf.t :=
  let idx := ((y * width + x) * 4)%Z in
  if shouldBeTransparent (number width) (number height) r (number x) (number y)
  then Buf.set result (idx + 3)%Z x00
  else result.

Definition maskRow (width height : Z) (r : float) (result : Buf.t) (y : Z) : Buf.t :=
  foldl (λ res x, maskPixel width height r res y x) result (seqZ 0 width).

Definition applyRoundedCorners (data : Buf.t) (width height : Z) (radius : float) : Buf.t :=
  if PrimFloat.eqb radius 0 then data
  else
    let result := data in
    let r := radius in
    foldl (maskRow width height r) result (seqZ 0 height).

(** Two doubles of the examples: [2^600] and 5.5. *)
Definition two_600 : float := 0x1p600%float.
Definition five_and_a_half : float := 5.5%float.

End Double.

(** ** Integers in binary64

    The value of the format ([SpecFloat]) that holds an integer of at most
    53 bits: the mantissa shifted to 53 bits, with the matching
    exponent. *)

Module Binary64.

Import SpecFloat FloatOps.

Definition canon (s : bool) (p : positive) : spec_float :=
  S754_finite s (Pos.shiftl p (Z.to_N (53 - Zpos (digits2_pos p))))
              (Zpos (digits2_pos p) - 53).

Definition ofZ (z : Z) : spec_float :=
  match z with
  | Z0 => S754_zero false
  | Zpos p => canon false p
  | Zneg p => canon true p
  end.

Definition signed (s : bool) (p : positive) : Z := if s then Zneg p else Zpos p.

(** A primitive float that holds the integer [z]. *)
Definition holds (f : PrimFloat.float) (z : Z) : Prop := Prim2SF f = ofZ z.

End Binary64.

(** ** Results of calls that may throw *)

(** A thrown value: an [Error] with its message, or anything else. *)
Inductive Thrown :=
| ErrorObject (message : string)
| OtherValue.

Inductive Result (A : Type) :=
| Ok (a : A)
| Throw (e : Thrown).
Arguments Ok {A} a.
Arguments Throw {A} e.

#[global] Instance Result_ret : MRet Result := λ A a, Ok a.
#[global] Instance Result_bind : MBind Result :=
  λ A B f m, match m with Ok a => f a | Throw e => Throw e end.

(** [for (const a of l) { s = body(s, a) }], leaving at the first throw. *)
Fixpoint for_of {A S : Type} (l : list A) (body : S → A → Result S) (s : S) : Result S :=
  match l with
  | [] => Ok s
  | a :: l' => s' ← body s a; for_of l' body s'
  end.

(** ** Strings *)

Fixpoint string_drop (n : nat) (s : string) : string :=
  match n, s with
  | O, _ => s
  | S n', String _ s' => string_drop n' s'
  | S _, EmptyString => EmptyString
  end.

(** [s.replace(pat, rep)] for a string pattern: the first occurrence only. *)
Fixpoint replace_first (pat rep s : string) : string :=
  if String.prefix pat s then String.append rep (string_drop (String.length pat) s)
  else match s with
       | EmptyString => EmptyString
       | String c s' => String c (replace_first pat rep s')
       end.

(** [list.includes(s)]. *)
Definition includes (l : list string) (s : string) : bool :=
  existsb (String.eqb s) l.

(** [(v as string) || d]: [null] and the empty string give the default. *)
Definition orString (v : option string) (d : string) : string :=
  match v with
  | Some s => if String.eqb s "" then d else s
  | None => d
  end.

(** ** The request, the archive and the response *)

Record File := {
  file_size : N;
  file_type : string;
  file_bytes : Buf.t;
}.

Record FormData := {
  fd_image : option File;
  fd_radius : option string;
  fd_appName : option string;
  fd_shortName : option string;
  fd_themeColor : option string;
}.

Inductive Content :=
| Binary (b : Buf.t)
| Text (s : string).

(** A JSZip archive: its files in insertion order, under their full path
    (directory entries are left out). *)
Abbreviation Zip := (list (string * Content)).

(** [folder.file(name, content)] for the folder [dir] of the archive: a
    file of that path is replaced where it stands, a new one is added
    last. *)
Fixpoint zip_file (zip : Zip) (path : string) (c : Content) : Zip :=
  match zip with
  | [] => [(path, c)]
  | (p, c') :: rest =>
      if String.eqb p path then (p, c) :: rest else (p, c') :: zip_file rest path c
  end.

Definition folder_file (dir : string) (zip : Zip) (name : string) (c : Content) : Zip :=
  zip_file zip (String.append dir name) c.

Inductive Response :=
| JsonResponse (status : Z) (error : string)
| ZipResponse (archive : Zip) (body : Buf.t) (filename : string).

(** ** Constants of the handler *)

Definition MAX_FILE_SIZE : N := 10 * 1024 * 1024.

Definition PUBLIC_SIZES : list (string * Z) :=
  [ ("public/favicon-16x16.png", 16);
    ("public/favicon-32x32.png", 32);
    ("public/favicon-48x48.png", 48);
    ("public/apple-touch-icon.png", 180);
    ("public/android-chrome-192x192.png", 192);
    ("public/android-chrome-512x512.png", 512);
    ("public/opengraph-image.png", 1200) ]%string.

Definition APP_SIZES : list (string * Z) :=
  [ ("src/app/icon.png", 32);
    ("src/app/apple-icon.png", 180) ]%string.

Definition ICO_SIZES : list Z := [16; 32; 48].

Definition validTypes : list string :=
  [ "image/png"; "image/jpeg"; "image/jpg"; "image/svg+xml" ]%string.

Definition msgNoFile : string := "画像ファイルが必要です".
Definition msgTooLarge : string := "ファイルサイズは10MB以下にしてください".
Definition msgBadType : string := "PNG、JPG、またはSVGファイルのみ対応しています".
Definition msgFailed : string := "ファビコンの生成中にエラーが発生しました".

(** [error instanceof Error ? error.message : msgFailed]. *)
Definition errorMessage (e : Thrown) : string :=
  match e with
  | ErrorObject m => m
  | OtherValue => msgFailed
  end.

(** What sharp is asked to read. *)
Inductive SharpInput :=
| Plain (input : Buf.t)
| Rasterized (input : Buf.t) (density width height : Z).  (* fit: "inside" *)

Record RGBA := { bg_r : Z; bg_g : Z; bg_b : Z; bg_alpha : Z }.

Inductive Fit :=
| Cover
| Contain (background : RGBA).

Definition transparent : RGBA := {| bg_r := 0; bg_g := 0; bg_b := 0; bg_alpha := 0 |}.

Record Metadata := { md_width : option N; md_height : option N }.

(** The raw raster sharp returns, with the [info] it reports. *)
Record Raw := { raw_data : Buf.t; info_width : Z; info_height : Z }.

(** The MIME types the specification lists. *)
Definition listedTypes : list string :=
  [ "image/png"; "image/jpeg"; "image/svg+xml" ]%string.

(** The source as sharp is asked to read it: an SVG is rasterized at
    density 300 into a 1024x1024 box. *)
Definition sourceOf (file : File) : SharpInput :=
  if String.eqb (file_type file) "image/svg+xml"
  then Rasterized (file_bytes file) 300 1024 1024
  else Plain (file_bytes file).

(** ** Validation *)

(** The checks at the head of the handler: an error response, or the file
    the rest of the handler works on. *)
Definition validate (image : option File) : Response + File :=
  match image with
  | None => inl (JsonResponse 400 msgNoFile)
  | Some file =>
      if (MAX_FILE_SIZE <? file_size file)%N then
        inl (JsonResponse 400 msgTooLarge)
      else if negb (includes validTypes (file_type file)) then
        inl (JsonResponse 400 msgBadType)
      else inr file
  end.

(** The files of a complete archive, in the order the handler adds them. *)
Definition fullSet : list string :=
  [ "public/favicon-16x16.png"; "public/favicon-32x32.png";
    "public/favicon-48x48.png"; "public/apple-touch-icon.png";
    "public/android-chrome-192x192.png"; "public/android-chrome-512x512.png";
    "public/opengraph-image.png";
    "src/app/icon.png"; "src/app/apple-icon.png";
    "public/favicon.ico"; "src/app/favicon.ico";
    "public/site.webmanifest"; "README.txt" ]%string.

Definition archiveOf (v16 v32 v48 v180 v192 v512 ogp ico : Buf.t)
    (manifest readme : string) : Zip :=
  [ ("public/favicon-16x16.png", Binary v16);
    ("public/favicon-32x32.png", Binary v32);
    ("public/favicon-48x48.png", Binary v48);
    ("public/apple-touch-icon.png", Binary v180);
    ("public/android-chrome-192x192.png", Binary v192);
    ("public/android-chrome-512x512.png", Binary v512);
    ("public/opengraph-image.png", Binary ogp);
    ("src/app/icon.png", Binary v32);
    ("src/app/apple-icon.png", Binary v180);
    ("public/favicon.ico", Binary ico);
    ("src/app/favicon.ico", Binary ico);
    ("public/site.webmanifest", Text manifest);
    ("README.txt", Text readme) ]%string.

(** [zip.file(path)]: the content stored under a path. *)
Fixpoint zip_lookup (zip : Zip) (path : string) : option Content :=
  match zip with
  | [] => None
  | (p, c) :: rest => if String.eqb p path then Some c else zip_lookup rest path
  end.


(** ** The handler *)

Section Handler.

(** The string to number conversion of the language ([Number] applied to a
    string). *)
Variable StringToNumber : string → JSNumber.

(** sharp: [metadata()], [ensureAlpha().png().toBuffer()] of the input,
    [resize(w, h, {fit, kernel: lanczos3})] read back raw or as PNG, and
    the PNG encoding of a raw raster. *)
Variable sharp_metadata : Buf.t → Result Metadata.
Variable sharp_png : SharpInput → Result Buf.t.
Variable sharp_resize_raw : Buf.t → Z → Z → Fit → Result Raw.
Variable sharp_resize_png : Buf.t → Z → Z → Fit → Result Buf.t.
Variable sharp_raw_png : Buf.t → Z → Z → Result Buf.t.

(** to-ico and JSZip's [generateAsync]. *)
Variable toIco : list Buf.t → Result Buf.t.
Variable generateAsync : Zip → Result Buf.t.

(** The texts of the archive: the manifest ([JSON.stringify]) from the app
    name, short name and theme colour; the README from these, the radius,
    the radius shown for 512 px and the local time. *)
Variable manifestText : string → string → string → string.
Variable readmeText : string → string → string → Q → Z → string → string.

(** The clock: the local time of the README and the date of the file
    name. *)
Variable localTime : string.
Variable isoDate : string.

(** [Number(v)] for a form value: [null] converts to 0. *)
Definition Number_ (v : option string) : JSNumber :=
  match v with
  | None => Finite 0
  | Some s => StringToNumber s
  end.

(** The radius of a request. *)
Definition radiusOf (fd : FormData) : Q :=
  valueOf (clampRadius (Number_ (fd_radius fd))).

Definition resizeAndApplyRoundedCorners
    (baseBuffer : Buf.t) (radius : Q) (previewBase : Z)
    (size : Z) (isOgp : bool) : Result Buf.t :=
  let '(targetWidth, targetHeight, fit) :=
    if isOgp then (1200, 630, Contain transparent)
    else (size, size, Cover) in
  raw ← sharp_resize_raw baseBuffer targetWidth targetHeight fit;
  let effective :=
    effectiveRadius radius previewBase targetWidth targetHeight
                    (info_width raw) (info_height raw) in
  let processedBuffer :=
    applyRoundedCorners (raw_data raw) (info_width raw) (info_height raw) effective in
  sharp_raw_png processedBuffer (info_width raw) (info_height raw).

(** One turn of the loop over [PUBLIC_SIZES]. *)
Definition publicStep (baseBuffer : Buf.t) (radius : Q) (previewBase : Z)
    (zip : Zip) (entry : string * Z) : Result Zip :=
  let '(filepath, size) := entry in
  let filename := replace_first "public/" "" filepath in
  let isOgp := String.eqb filename "opengraph-image.png" in
  if isOgp then
    ogpImage ← sharp_resize_png baseBuffer 1200 630 (Contain transparent);
    mret (folder_file "public/" zip filename (Binary ogpImage))
  else
    resized ← resizeAndApplyRoundedCorners baseBuffer radius previewBase size false;
    mret (folder_file "public/" zip filename (Binary resized)).

(** One turn of the loop over [APP_SIZES]. *)
Definition appStep (baseBuffer : Buf.t) (radius : Q) (previewBase : Z)
    (zip : Zip) (entry : string * Z) : Result Zip :=
  let '(filepath, size) := entry in
  let filename := replace_first "src/app/" "" filepath in
  resized ← resizeAndApplyRoundedCorners baseBuffer radius previewBase size false;
  mret (folder_file "src/app/" zip filename (Binary resized)).

(** One turn of the loop over [ICO_SIZES]. *)
Definition icoStep (baseBuffer : Buf.t) (radius : Q) (previewBase : Z)
    (icoInputBuffers : list Buf.t) (size : Z) : Result (list Buf.t) :=
  resized ← resizeAndApplyRoundedCorners baseBuffer radius previewBase size false;
  mret (icoInputBuffers ++ [resized]).

(** The part of the handler after validation. *)
Definition generate (fd : FormData) (file : File) : Result Response :=
  let appName := orString (fd_appName fd) "My App" in
  let shortName := orString (fd_shortName fd) "App" in
  let themeColor := orString (fd_themeColor fd) "#6366f1" in
  let radius := radiusOf fd in
  let inputBuffer := file_bytes file in
  metadata ← sharp_metadata inputBuffer;
  let image := sourceOf file in
  baseBuffer ← sharp_png image;
  let zip : Zip := [] in
  let previewBase := previewBaseSize (md_width metadata) (md_height metadata) in
  zip ← for_of PUBLIC_SIZES (publicStep baseBuffer radius previewBase) zip;
  zip ← for_of APP_SIZES (appStep baseBuffer radius previewBase) zip;
  icoInputBuffers ← for_of ICO_SIZES (icoStep baseBuffer radius previewBase) [];
  icoBuffer ← toIco icoInputBuffers;
  let zip := folder_file "public/" zip "favicon.ico" (Binary icoBuffer) in
  let zip := folder_file "src/app/" zip "favicon.ico" (Binary icoBuffer) in
  let zip := folder_file "public/" zip "site.webmanifest"
               (Text (manifestText appName shortName themeColor)) in
  let displayRadius := Math_round (radius * (512 / inject_Z previewBase)) in
  let effectiveDisplayRadius := Z.min displayRadius 256 in
  let readme := readmeText appName shortName themeColor radius
                           effectiveDisplayRadius localTime in
  let zip := zip_file zip "README.txt" (Text readme) in
  zipBuffer ← generateAsync zip;
  mret (ZipResponse zip zipBuffer
          (String.append "favicons-" (String.append isoDate ".zip"))).

(** The body of the [try] block, from the parsed form on. *)
Definition handle (fd : FormData) : Result Response :=
  match validate (fd_image fd) with
  | inl response => mret response
  | inr file => generate fd file
  end.

(** [POST]: [request.formData()] may throw as well; whatever is thrown in
    the [try] block becomes one 500 response. *)
Definition POST (formData : Result FormData) : Response :=
  match formData ≫= handle with
  | Ok response => response
  | Throw error => JsonResponse 500 (errorMessage error)
  end.

(** Every stage of a request succeeded, with these results. *)
Record Stages (fd : FormData) (file : File)
    (metadata : Metadata) (base v16 v32 v48 v180 v192 v512 ogp ico body : Buf.t)
    (zip : Zip) : Prop := {
  st_metadata : sharp_metadata (file_bytes file) = Ok metadata;
  st_base : sharp_png (sourceOf file) = Ok base;
  st_16 : resizeAndApplyRoundedCorners base (radiusOf fd)
            (previewBaseSize (md_width metadata) (md_height metadata)) 16 false = Ok v16;
  st_32 : resizeAndApplyRoundedCorners base (radiusOf fd)
            (previewBaseSize (md_width metadata) (md_height metadata)) 32 false = Ok v32;
  st_48 : resizeAndApplyRoundedCorners base (radiusOf fd)
            (previewBaseSize (md_width metadata) (md_height metadata)) 48 false = Ok v48;
  st_180 : resizeAndApplyRoundedCorners base (radiusOf fd)
            (previewBaseSize (md_width metadata) (md_height metadata)) 180 false = Ok v180;
  st_192 : resizeAndApplyRoundedCorners base (radiusOf fd)
            (previewBaseSize (md_width metadata) (md_height metadata)) 192 false = Ok v192;
  st_512 : resizeAndApplyRoundedCorners base (radiusOf fd)
            (previewBaseSize (md_width metadata) (md_height metadata)) 512 false = Ok v512;
  st_ogp : sharp_resize_png base 1200 630 (Contain transparent) = Ok ogp;
  st_ico : toIco [v16; v32; v48] = Ok ico;
  st_zip : ∃ manifest readme,
      zip = archiveOf v16 v32 v48 v180 v192 v512 ogp ico manifest readme;
  st_body : generateAsync zip = Ok body;
}.

End Handler.

(** ** The page ([src/app/page.tsx])

    The state of the component (its twelve [useState] cells) and its
    handlers as functions on that state.  A handler is taken from its
    call to the last state update it makes, with no other event in
    between; the asynchronous pieces (the file reader, [fetch], the
    download through the document) are parameters. *)

Module Page.

Local Open Scope string_scope.

Definition MAX_FILE_SIZE : N := 10 * 1024 * 1024.

Definition validTypes : list string :=
  [ "image/png"; "image/jpeg"; "image/jpg"; "image/svg+xml" ]%string.

Definition msgSelectType : string := "PNG、JPG、またはSVGファイルを選択してください".
Definition msgTooLarge : string := "ファイルサイズは10MB以下にしてください".
Definition msgGenerateFailed : string := "生成に失敗しました".
Definition msgError : string := "エラーが発生しました".

Inductive OutputMode := nextjs | general.

Record Code := { code_nextjs : string; code_html : string }.

Record State := {
  file : option File;
  preview : option string;
  radius : Z;
  appName : string;
  shortName : string;
  themeColor : string;
  isGenerating : bool;
  error : option string;
  generatedCode : option Code;
  outputMode : OutputMode;
  copied : bool;
  isDragOver : bool;
}.

Definition setFile (v : option File) (st : State) : State :=
  {| file := v; preview := preview st; radius := radius st; appName := appName st;
     shortName := shortName st; themeColor := themeColor st;
     isGenerating := isGenerating st; error := error st;
     generatedCode := generatedCode st; outputMode := outputMode st;
     copied := copied st; isDragOver := isDragOver st |}.

Definition setPreview (v : option string) (st : State) : State :=
  {| file := file st; preview := v; radius := radius st; appName := appName st;
     shortName := shortName st; themeColor := themeColor st;
     isGenerating := isGenerating st; error := error st;
     generatedCode := generatedCode st; outputMode := outputMode st;
     copied := copied st; isDragOver := isDragOver st |}.

Definition setIsGenerating (v : bool) (st : State) : State :=
  {| file := file st; preview := preview st; radius := radius st; appName := appName st;
     shortName := shortName st; themeColor := themeColor st;
     isGenerating := v; error := error st;
     generatedCode := generatedCode st; outputMode := outputMode st;
     copied := copied st; isDragOver := isDragOver st |}.

Definition setError (v : option string) (st : State) : State :=
  {| file := file st; preview := preview st; radius := radius st; appName := appName st;
     shortName := shortName st; themeColor := themeColor st;
     isGenerating := isGenerating st; error := v;
     generatedCode := generatedCode st; outputMode := outputMode st;
     copied := copied st; isDragOver := isDragOver st |}.

Definition setGeneratedCode (v : option Code) (st : State) : State :=
  {| file := file st; preview := preview st; radius := radius st; appName := appName st;
     shortName := shortName st; themeColor := themeColor st;
     isGenerating := isGenerating st; error := error st;
     generatedCode := v; outputMode := outputMode st;
     copied := copied st; isDragOver := isDragOver st |}.

Definition setIsDragOver (v : bool) (st : State) : State :=
  {| file := file st; preview := preview st; radius := radius st; appName := appName st;
     shortName := shortName st; themeColor := themeColor st;
     isGenerating := isGenerating st; error := error st;
     generatedCode := generatedCode st; outputMode := outputMode st;
     copied := copied st; isDragOver := v |}.

(** The double quote and the line feed of the two templates. *)
Definition dq : string := String (Ascii.ascii_of_nat 34) EmptyString.
Definition nl : string := String (Ascii.ascii_of_nat 10) EmptyString.

Definition generateNextJsCode (color name : string) : string :=
  String.concat "" [
    "// src/app/layout.tsx"; nl;
    "import type { Metadata } from "; dq; "next"; dq; ";"; nl;
    nl;
    "export const metadata: Metadata = {"; nl;
    "  title: "; dq; name; dq; ","; nl;
    "  description: "; dq; "Your app description"; dq; ","; nl;
    "  icons: {"; nl;
    "    icon: ["; nl;
    "      { url: "; dq; "/favicon.ico"; dq; ", sizes: "; dq; "any"; dq; " },"; nl;
    "      { url: "; dq; "/favicon-16x16.png"; dq; ", sizes: "; dq; "16x16"; dq; ", type: "; dq; "image/png"; dq; " },"; nl;
    "      { url: "; dq; "/favicon-32x32.png"; dq; ", sizes: "; dq; "32x32"; dq; ", type: "; dq; "image/png"; dq; " },"; nl;
    "      { url: "; dq; "/favicon-48x48.png"; dq; ", sizes: "; dq; "48x48"; dq; ", type: "; dq; "image/png"; dq; " },"; nl;
    "    ],"; nl;
    "    apple: ["; nl;
    "      { url: "; dq; "/apple-touch-icon.png"; dq; ", sizes: "; dq; "180x180"; dq; ", type: "; dq; "image/png"; dq; " },"; nl;
    "    ],"; nl;
    "  },"; nl;
    "  manifest: "; dq; "/site.webmanifest"; dq; ","; nl;
    "  openGraph: {"; nl;
    "    images: [{ url: "; dq; "/opengraph-image.png"; dq; ", width: 1200, height: 630 }],"; nl;
    "  },"; nl;
    "  other: {"; nl;
    "    "; dq; "theme-color"; dq; ": "; dq; color; dq; ","; nl;
    "    "; dq; "msapplication-TileColor"; dq; ": "; dq; color; dq; ","; nl;
    "  },"; nl;
    "};" ].

Definition generateHtmlTags (color : string) : string :=
  String.concat "" [
    "<!-- Favicon -->"; nl;
    "<link rel="; dq; "icon"; dq; " type="; dq; "image/x-icon"; dq; " href="; dq; "/favicon.ico"; dq; ">"; nl;
    "<link rel="; dq; "icon"; dq; " type="; dq; "image/png"; dq; " sizes="; dq; "16x16"; dq; " href="; dq; "/favicon-16x16.png"; dq; ">"; nl;
    "<link rel="; dq; "icon"; dq; " type="; dq; "image/png"; dq; " sizes="; dq; "32x32"; dq; " href="; dq; "/favicon-32x32.png"; dq; ">"; nl;
    "<link rel="; dq; "icon"; dq; " type="; dq; "image/png"; dq; " sizes="; dq; "48x48"; dq; " href="; dq; "/favicon-48x48.png"; dq; ">"; nl;
    nl;
    "<!-- Apple Touch Icon -->"; nl;
    "<link rel="; dq; "apple-touch-icon"; dq; " sizes="; dq; "180x180"; dq; " href="; dq; "/apple-touch-icon.png"; dq; ">"; nl;
    nl;
    "<!-- Android Chrome -->"; nl;
    "<link rel="; dq; "icon"; dq; " type="; dq; "image/png"; dq; " sizes="; dq; "192x192"; dq; " href="; dq; "/android-chrome-192x192.png"; dq; ">"; nl;
    "<link rel="; dq; "icon"; dq; " type="; dq; "image/png"; dq; " sizes="; dq; "512x512"; dq; " href="; dq; "/android-chrome-512x512.png"; dq; ">"; nl;
    nl;
    "<!-- Web Manifest & OGP -->"; nl;
    "<link rel="; dq; "manifest"; dq; " href="; dq; "/site.webmanifest"; dq; ">"; nl;
    "<meta property="; dq; "og:image"; dq; " content="; dq; "/opengraph-image.png"; dq; ">"; nl;
    nl;
    "<!-- Theme Color -->"; nl;
    "<meta name="; dq; "theme-color"; dq; " content="; dq; color; dq; ">"; nl;
    "<meta name="; dq; "msapplication-TileColor"; dq; " content="; dq; color; dq; ">" ].

(** [haystack.includes(needle)]. *)
Fixpoint contains (needle haystack : string) : bool :=
  if String.prefix needle haystack then true
  else match haystack with
       | EmptyString => false
       | String _ rest => contains needle rest
       end.

(** What the page reads off a response: [response.ok], the [error] field
    of [response.json()], and the bytes of [response.blob()]. *)
Definition ok (response : Response) : bool :=
  match response with
  | JsonResponse status _ => ((200 <=? status) && (status <=? 299))%Z
  | ZipResponse _ _ _ => true
  end.

Section Handlers.

(** The data URL a [FileReader] loads from a file. *)
Variable readAsDataURL : File → string.

(** [radius.toString()]. *)
Variable NumberToString : Z → string.

(** [fetch("/api/generate", {method: "POST", body})]: the response of the
    server, unless the request itself fails. *)
Variable fetch : FormData → Result Response.

(** [response.json()] and [response.blob()]. *)
Variable json : Response → Result string.
Variable blob : Response → Result Buf.t.

(** The download: an object URL for the blob and a click on a temporary
    link named favicons-<date>.zip. *)
Variable download : Buf.t → Result ().

Definition handleFile (selectedFile : File) (st : State) : State :=
  let st := setError None st in
  let st := setGeneratedCode None st in
  if negb (includes validTypes (file_type selectedFile)) then
    setError (Some msgSelectType) st
  else if (MAX_FILE_SIZE <? file_size selectedFile)%N then
    setError (Some msgTooLarge) st
  else
    let st := setFile (Some selectedFile) st in
    setPreview (Some (readAsDataURL selectedFile)) st.

(** [handleDrop] with the files of the drop. *)
Definition handleDrop (files : list File) (st : State) : State :=
  let st := setIsDragOver false st in
  match files with
  | droppedFile :: _ => handleFile droppedFile st
  | [] => st
  end.

(** [handleFileSelect] with the files of the input. *)
Definition handleFileSelect (files : option (list File)) (st : State) : State :=
  match files with
  | Some (selectedFile :: _) => handleFile selectedFile st
  | _ => st
  end.

Definition handleDragOver (st : State) : State := setIsDragOver true st.
Definition handleDragLeave (st : State) : State := setIsDragOver false st.

Definition handleReset (st : State) : State :=
  setGeneratedCode None (setError None (setPreview None (setFile None st))).

(** The form [handleGenerate] sends. *)
Definition formDataOf (st : State) (image : File) : FormData :=
  {| fd_image := Some image;
     fd_radius := Some (NumberToString (radius st));
     fd_appName := Some (appName st);
     fd_shortName := Some (shortName st);
     fd_themeColor := Some (themeColor st) |}.

(** The [try] block of [handleGenerate]. *)
Definition requestArchive (st : State) (image : File) : Result State :=
  let formData := formDataOf st image in
  response ← fetch formData;
  if negb (ok response) then
    errorData ← json response;
    Throw (ErrorObject (if String.eqb errorData "" then msgGenerateFailed
                        else errorData))
  else
    zipped ← blob response;
    _ ← download zipped;
    mret (setGeneratedCode
            (Some {| code_nextjs := generateNextJsCode (themeColor st) (appName st);
                     code_html := generateHtmlTags (themeColor st) |}) st).

Definition handleGenerate (st : State) : State :=
  match file st with
  | None => st
  | Some image =>
      let st := setIsGenerating true st in
      let st := setError None st in
      let st :=
        match requestArchive st image with
        | Ok st' => st'
        | Throw err =>
            setError (Some (match err with
                            | ErrorObject message => message
                            | OtherValue => msgError
                            end)) st
        end in
      setIsGenerating false st
  end.

End Handlers.

End Page.

(** ** Sample inputs

    A fully opaque white raster, and a stand-in for the libraries in which
    every call succeeds, used to run the handler on examples. *)

Module Sample.

Definition opaque (pixels : nat) : Buf.t := replicate (4 * pixels) xff.

(** A conversion that knows the two strings of the examples. *)
Definition number (s : string) : JSNumber :=
  if String.eqb s "40" then Finite 40
  else if String.eqb s "0" then Finite 0
  else NaN.

Definition metadata (input : Buf.t) : Result Metadata :=
  Ok {| md_width := Some 512%N; md_height := Some 512%N |}.

(** A decoder that rejects its input. *)
Definition corrupt (input : Buf.t) : Result Metadata :=
  Throw (ErrorObject "Input buffer contains unsupported image format").

Definition png (input : SharpInput) : Result Buf.t := Ok [].

Definition resize_raw (base : Buf.t) (w h : Z) (fit : Fit) : Result Raw :=
  Ok {| raw_data := []; info_width := w; info_height := h |}.

Definition resize_png (base : Buf.t) (w h : Z) (fit : Fit) : Result Buf.t := Ok [].

Definition raw_png (raw : Buf.t) (w h : Z) : Result Buf.t := Ok [].

Definition ico (images : list Buf.t) : Result Buf.t := Ok [].

Definition zipped (zip : Zip) : Result Buf.t := Ok [].

Definition manifest (appName shortName themeColor : string) : string := "{}".

Definition readme (appName shortName themeColor : string) (radius : Q)
    (shown : Z) (time : string) : string := "README".

Definition pngFile : File :=
  {| file_size := 1; file_type := "image/png"; file_bytes := [] |}.

Definition jpgFile : File :=
  {| file_size := 1; file_type := "image/jpg"; file_bytes := [] |}.

Definition largeFile : File :=
  {| file_size := 10 * 1024 * 1024 + 1; file_type := "image/png"; file_bytes := [] |}.

Definition form (file : File) : FormData :=
  {| fd_image := Some file; fd_radius := Some "40"%string;
     fd_appName := None; fd_shortName := None; fd_themeColor := None |}.

End Sample.

(** ** Sample page

    A state of the page and stand-ins for the browser, for examples. *)

Module Demo.

Definition state (image : option File) : Page.State :=
  {| Page.file := image; Page.preview := None; Page.radius := 40;
     Page.appName := "My App"; Page.shortName := "App";
     Page.themeColor := "#6366f1"; Page.isGenerating := false;
     Page.error := None; Page.generatedCode := None;
     Page.outputMode := Page.nextjs; Page.copied := false;
     Page.isDragOver := false |}.

Definition dataURL (f : File) : string := "data:image/png;base64,".

Definition toString (z : Z) : string := "40".

(** A server that refuses every request. *)
Definition refusing (fd : FormData) : Result Response :=
  Ok (JsonResponse 500 "Input buffer contains unsupported image format").

Definition errorField (response : Response) : Result string :=
  match response with
  | JsonResponse _ e => Ok e
  | ZipResponse _ _ _ => Throw (ErrorObject "Unexpected token")
  end.

Definition bytes (response : Response) : Result Buf.t :=
  match response with
  | JsonResponse _ _ => Ok []
  | ZipResponse _ body _ => Ok body
  end.

Definition save (zipped : Buf.t) : Result () := Ok ().

End Demo.

(** * Properties *)

(** ** Buffers *)

Lemma Buf_length_set (b : Buf.t) i v : length (Buf.set b i v) = length b.
Proof. unfold Buf.set. destruct (0 <=? i); [apply length_insert | reflexivity]. Qed.

Lemma Buf_lookup_set_ne (b : Buf.t) i v (k : nat) :
  Z.of_nat k ≠ i → Buf.set b i v !! k = b !! k.
Proof.
  intros Hne. unfold Buf.set. destruct (0 <=? i) eqn:Hi; [|reflexivity].
  apply list_lookup_insert_ne. apply Z.leb_le in Hi. lia.
Qed.

Lemma Buf_lookup_set_eq (b : Buf.t) i v (k : nat) :
  Z.of_nat k = i → Buf.set b i v !! k = (λ _, v) <$> b !! k.
Proof.
  intros <-. unfold Buf.set. rewrite Nat2Z.id.
  destruct (0 <=? Z.of_nat k) eqn:Hk; [|apply Z.leb_gt in Hk; lia].
  destruct (b !! k) eqn:Hb.
  - apply list_lookup_insert_eq. eapply lookup_lt_Some; eauto.
  - rewrite list_insert_ge by (by apply lookup_ge_None). exact Hb.
Qed.

Lemma Buf_get_lookup (b : Buf.t) (k : nat) : Buf.get b (Z.of_nat k) = b !! k.
Proof.
  unfold Buf.get. rewrite Nat2Z.id.
  destruct (0 <=? Z.of_nat k) eqn:Hk; [done | apply Z.leb_gt in Hk; lia].
Qed.

(** ** The loops of [applyRoundedCorners] *)

Lemma zeroed_idem o : zeroed (zeroed o) = zeroed o.
Proof. by destruct o. Qed.

Lemma maskPixel_lookup width height r (b : Buf.t) y x (k : nat) :
  maskPixel width height r b y x !! k
  = if writes width height r k y x then zeroed (b !! k) else b !! k.
Proof.
  unfold maskPixel, writes.
  destruct (shouldBeTransparent width height r x y); simpl; [|done].
  destruct (Z.eqb_spec ((y * width + x) * 4 + 3) (Z.of_nat k)) as [He|Hne].
  - by apply Buf_lookup_set_eq.
  - by apply Buf_lookup_set_ne.
Qed.

Lemma foldl_mask_lookup {A} (step : Buf.t → A → Buf.t) (hit : A → bool)
    (k : nat) (l : list A) :
  (∀ b a, step b a !! k = if hit a then zeroed (b !! k) else b !! k) →
  ∀ b, foldl step b l !! k = if existsb hit l then zeroed (b !! k) else b !! k.
Proof.
  intros Hstep. induction l as [|a l IH]; intros b; simpl; [done|].
  rewrite IH, Hstep.
  destruct (hit a), (existsb hit l); simpl; auto using zeroed_idem.
Qed.

Lemma maskRow_lookup width height r (b : Buf.t) y (k : nat) :
  maskRow width height r b y !! k
  = if rowWrites width height r k y then zeroed (b !! k) else b !! k.
Proof.
  unfold maskRow, rowWrites.
  apply (foldl_mask_lookup (λ res x, maskPixel width height r res y x)).
  intros. apply maskPixel_lookup.
Qed.

Lemma applyRoundedCorners_lookup (data : Buf.t) width height r (k : nat) :
  r ≠ 0 →
  applyRoundedCorners data width height r !! k
  = if masked width height r k then zeroed (data !! k) else data !! k.
Proof.
  intros Hr. unfold applyRoundedCorners, masked.
  destruct (Z.eqb_spec r 0) as [|_]; [done|].
  apply (foldl_mask_lookup (maskRow width height r)).
  intros. apply maskRow_lookup.
Qed.

Lemma masked_true width height r (k : nat) :
  masked width height r k = true ↔
  ∃ x y, onGrid width height x y
         ∧ shouldBeTransparent width height r x y = true
         ∧ (y * width + x) * 4 + 3 = Z.of_nat k.
Proof.
  unfold masked, rowWrites, writes, onGrid. rewrite existsb_exists. split.
  - intros (y & Hy & Hrow). apply existsb_exists in Hrow as (x & Hx & Hw).
    apply andb_true_iff in Hw as [Ht Hk]. apply Z.eqb_eq in Hk.
    apply list_elem_of_In, elem_of_seqZ in Hy.
    apply list_elem_of_In, elem_of_seqZ in Hx.
    exists x, y. repeat split; auto; lia.
  - intros (x & y & [Hx Hy] & Ht & Hk). exists y. split.
    + apply list_elem_of_In, elem_of_seqZ. lia.
    + apply existsb_exists. exists x. split.
      * apply list_elem_of_In, elem_of_seqZ. lia.
      * apply andb_true_iff. split; [done | by apply Z.eqb_eq].
Qed.

(** Two pixels of the grid with the same offset are the same pixel. *)
Lemma pixel_offset_inj width x y x' y' :
  0 <= x < width → 0 <= x' < width →
  y * width + x = y' * width + x' → x = x' ∧ y = y'.
Proof.
  intros Hx Hx' He.
  assert (y = y') as -> by nia. lia.
Qed.

Lemma masked_at_alpha width height r x y (k : nat) :
  onGrid width height x y →
  (y * width + x) * 4 + 3 = Z.of_nat k →
  masked width height r k = shouldBeTransparent width height r x y.
Proof.
  intros [Hx Hy] Hk.
  destruct (shouldBeTransparent width height r x y) eqn:Ht.
  - apply masked_true. exists x, y. unfold onGrid. auto.
  - apply not_true_is_false. intros Hm.
    apply masked_true in Hm as (x' & y' & [Hx' Hy'] & Ht' & Hk').
    destruct (pixel_offset_inj width x y x' y') as [-> ->]; [lia..|].
    congruence.
Qed.

(** ** The corner tests against the specification's four squares *)

Lemma shouldBeTransparent_orb width height r x y :
  shouldBeTransparent width height r x y
  = ((x <? r) && (y <? r)
       && ((r - x) * (r - x) + (r - y) * (r - y) >? r * r))
    || ((x >=? width - r) && (y <? r)
       && ((x - (width - r - 1)) * (x - (width - r - 1)) + (r - y) * (r - y) >? r * r))
    || ((x <? r) && (y >=? height - r)
       && ((r - x) * (r - x) + (y - (height - r - 1)) * (y - (height - r - 1)) >? r * r))
    || ((x >=? width - r) && (y >=? height - r)
       && ((x - (width - r - 1)) * (x - (width - r - 1))
           + (y - (height - r - 1)) * (y - (height - r - 1)) >? r * r)).
Proof.
  unfold shouldBeTransparent. cbv zeta.
  destruct (x <? r), (y <? r), (x >=? width - r), (y >=? height - r); simpl;
    repeat match goal with |- context [?a >? ?b] => destruct (a >? b) end;
    reflexivity.
Qed.

Lemma shouldBeTransparent_outsideArc width height r x y :
  shouldBeTransparent width height r x y = true ↔ outsideArc width height r x y.
Proof.
  rewrite shouldBeTransparent_orb. unfold outsideArc. split.
  - intros H. repeat (apply orb_true_iff in H as [H|H]).
    + exists TopLeft. unfold inSquare, dist2; simpl. lia.
    + exists TopRight. unfold inSquare, dist2; simpl. lia.
    + exists BottomLeft. unfold inSquare, dist2; simpl. lia.
    + exists BottomRight. unfold inSquare, dist2; simpl. lia.
  - intros [c [Hin Hd]]. unfold inSquare, dist2 in *.
    destruct c; simpl in *; lia.
Qed.

(** ** The corner mask: which alpha bytes change *)

Lemma alpha_offset_bounds width height x y :
  onGrid width height x y →
  0 <= (y * width + x) * 4 ∧ (y * width + x) * 4 + 3 < width * height * 4.
Proof. intros [Hx Hy]. split; nia. Qed.

Lemma alpha_applyRoundedCorners (data : Buf.t) width height r x y :
  r ≠ 0 → onGrid width height x y →
  alpha (applyRoundedCorners data width height r) width x y
  = if shouldBeTransparent width height r x y
    then zeroed (alpha data width x y) else alpha data width x y.
Proof.
  intros Hr Hg. pose proof (alpha_offset_bounds _ _ _ _ Hg) as [Hlo _].
  unfold alpha, channel.
  set (i := (y * width + x) * 4 + 3).
  assert (Hi : i = Z.of_nat (Z.to_nat i)) by (subst i; lia).
  rewrite Hi, !Buf_get_lookup, applyRoundedCorners_lookup by done.
  by rewrite (masked_at_alpha width height r x y).
Qed.

Lemma alpha_defined (data : Buf.t) width height x y :
  rgba8 data width height → onGrid width height x y →
  is_Some (alpha data width x y).
Proof.
  intros Hlen Hg. pose proof (alpha_offset_bounds _ _ _ _ Hg) as [Hlo Hhi].
  unfold alpha, channel, Buf.get, rgba8 in *.
  destruct (Z.leb_spec 0 ((y * width + x) * 4 + 3)); [|lia].
  apply lookup_lt_is_Some. lia.
Qed.

(** With the radius at most half the shorter side, a pixel is in at most
    one corner square. *)
Lemma corner_squares_disjoint width height r x y c c' :
  r <= Z.min width height / 2 →
  inSquare c width height r x y → inSquare c' width height r x y → c = c'.
Proof.
  intros Hr.
  assert (2 * r <= width ∧ 2 * r <= height) as [Hw Hh]
    by (Z.div_mod_to_equations; lia).
  destruct c, c'; unfold inSquare; intros; (reflexivity || lia).
Qed.

(** ** Binary64 arithmetic on integers

    Sums, differences, products and comparisons of doubles that hold
    integers are exact as long as the results have at most 53 bits.  The
    lemmas are about the specification of the format ([SpecFloat]) and,
    through the axioms that tie the primitive operations to it, about
    the primitive floats. *)

Module Binary64Facts.

Import SpecFloat FloatOps Binary64.

Lemma digits_bounds p :
  2 ^ (Zpos (digits2_pos p) - 1) <= Zpos p < 2 ^ Zpos (digits2_pos p).
Proof.
  induction p as [p IH|p IH|]; simpl digits2_pos; [| |simpl; lia].
  - rewrite Pos2Z.inj_succ, (Pos2Z.inj_xI p).
    replace (Z.succ (Zpos (digits2_pos p)) - 1) with (Z.succ (Zpos (digits2_pos p) - 1)) by lia.
    rewrite !Z.pow_succ_r by lia.
    generalize dependent (2 ^ (Zpos (digits2_pos p) - 1)).
    generalize dependent (2 ^ Zpos (digits2_pos p)). intros; lia.
  - rewrite Pos2Z.inj_succ, (Pos2Z.inj_xO p).
    replace (Z.succ (Zpos (digits2_pos p)) - 1) with (Z.succ (Zpos (digits2_pos p) - 1)) by lia.
    rewrite !Z.pow_succ_r by lia.
    generalize dependent (2 ^ (Zpos (digits2_pos p) - 1)).
    generalize dependent (2 ^ Zpos (digits2_pos p)). intros; lia.
Qed.

Lemma digits_le p n : 0 <= n → Zpos p < 2 ^ n → Zpos (digits2_pos p) <= n.
Proof.
  intros Hn Hp. destruct (Z.le_gt_cases (Zpos (digits2_pos p)) n) as [|Hgt]; [done|].
  pose proof (digits_bounds p) as [Hlo _].
  assert (H : 2 ^ n <= 2 ^ (Zpos (digits2_pos p) - 1)). { clear Hp Hlo. apply Z.pow_le_mono_r; lia. }
  exfalso. apply (Z.lt_irrefl (Zpos p)).
  eapply Z.lt_le_trans; [exact Hp|]. by etransitivity.
Qed.

Lemma Zpos_shiftl p (k : N) : Zpos (Pos.shiftl p k) = Zpos p * 2 ^ Z.of_N k.
Proof.
  destruct k as [|k].
  { change (Zpos p = Zpos p * 1). lia. }
  change (Zpos (Pos.iter xO p k) = Zpos p * 2 ^ Zpos k).
  induction k using Pos.peano_ind.
  - change (Zpos p~0 = Zpos p * 2). lia.
  - rewrite Pos.iter_succ, Pos2Z.inj_succ, Z.pow_succ_r by lia.
    rewrite (Pos2Z.inj_xO (Pos.iter xO p k)), IHk. ring.
Qed.

Lemma digits_shiftl p (k : N) :
  Zpos (digits2_pos (Pos.shiftl p k)) = Zpos (digits2_pos p) + Z.of_N k.
Proof.
  destruct k as [|k].
  { change (Zpos (digits2_pos p) = Zpos (digits2_pos p) + 0). lia. }
  change (Zpos (digits2_pos (Pos.iter xO p k)) = Zpos (digits2_pos p) + Zpos k).
  induction k using Pos.peano_ind.
  - change (Zpos (Pos.succ (digits2_pos p)) = Zpos (digits2_pos p) + 1). lia.
  - rewrite Pos.iter_succ.
    change (Zpos (Pos.succ (digits2_pos (Pos.iter xO p k)))
            = Zpos (digits2_pos p) + Zpos (Pos.succ k)). lia.
Qed.

Lemma iter_pos_swap {A} (f : A → A) n x : iter_pos f n (f x) = f (iter_pos f n x).
Proof.
  revert x. induction n as [n IH|n IH|]; intros x; simpl; [|by rewrite !IH|done].
  by rewrite !IH.
Qed.

Lemma iter_pos_succ {A} (f : A → A) n x :
  iter_pos f (Pos.succ n) x = iter_pos f n (f x).
Proof.
  revert x. induction n as [n IH|n IH|]; intros x; simpl; [|done|done].
  rewrite !IH. by rewrite !iter_pos_swap.
Qed.

Lemma shr_shiftl m (n : positive) :
  iter_pos shr_1 n {| shr_m := Zpos (Pos.iter xO m n); shr_r := false; shr_s := false |}
  = {| shr_m := Zpos m; shr_r := false; shr_s := false |}.
Proof.
  induction n using Pos.peano_ind; [done|].
  rewrite iter_pos_succ, Pos.iter_succ. simpl. exact IHn.
Qed.

Lemma shiftl_add p (j n : N) : Pos.shiftl (Pos.shiftl p j) n = Pos.shiftl p (j + n).
Proof.
  apply Pos2Z.inj. rewrite !Zpos_shiftl, N2Z.inj_add, Z.pow_add_r by lia. ring.
Qed.

Lemma fexp_digits d : 1 <= d <= 53 → fexp prec emax d = d - 53.
Proof. intros Hd. unfold fexp, SpecFloat.emin, prec, emax. lia. Qed.

(** Shifting an integer mantissa with enough trailing zeros to 53 bits
    loses nothing. *)
Lemma shr_fexp_exact p (k : N) :
  Zpos (digits2_pos p) <= 53 → 53 <= Zpos (digits2_pos p) + Z.of_N k →
  shr_fexp prec emax (Zpos (Pos.shiftl p k)) (- Z.of_N k) loc_Exact
  = ({| shr_m := Zpos (Pos.shiftl p (Z.to_N (53 - Zpos (digits2_pos p))));
        shr_r := false; shr_s := false |},
     Zpos (digits2_pos p) - 53).
Proof.
  intros Hd Hk. unfold shr_fexp.
  change (Zdigits2 (Zpos (Pos.shiftl p k))) with (Zpos (digits2_pos (Pos.shiftl p k))).
  rewrite digits_shiftl.
  replace (Zpos (digits2_pos p) + Z.of_N k + - Z.of_N k) with (Zpos (digits2_pos p)) by lia.
  rewrite fexp_digits by lia.
  set (j := Z.to_N (53 - Zpos (digits2_pos p))).
  destruct (Zpos (digits2_pos p) - 53 - - Z.of_N k) as [|n|n] eqn:En; [| |lia].
  - simpl. do 2 f_equal; [|lia]. do 2 f_equal. lia.
  - unfold shr, shr_record_of_loc.
    assert (Ek : k = (j + Npos n)%N) by lia.
    rewrite Ek at 1. rewrite <- shiftl_add.
    change (Pos.shiftl (Pos.shiftl p j) (Npos n)) with (Pos.iter xO (Pos.shiftl p j) n).
    rewrite shr_shiftl. f_equal. lia.
Qed.

Lemma round_aux_canon s p (k : N) :
  Zpos (digits2_pos p) <= 53 → 53 <= Zpos (digits2_pos p) + Z.of_N k →
  binary_round_aux prec emax s (Zpos (Pos.shiftl p k)) (- Z.of_N k) loc_Exact
  = canon s p.
Proof.
  intros Hd Hk. unfold binary_round_aux.
  rewrite (shr_fexp_exact p k Hd Hk).
  cbn [shr_m loc_of_shr_record round_nearest_even].
  set (j := Z.to_N (53 - Zpos (digits2_pos p))).
  replace (Zpos (digits2_pos p) - 53) with (- Z.of_N j) by lia.
  rewrite (shr_fexp_exact p j Hd) by lia.
  cbn [shr_m]. fold j.
  replace (Zpos (digits2_pos p) - 53 <=? emax - prec) with true
    by (unfold emax, prec; lia).
  reflexivity.
Qed.

(** Rounding an integer with at most 53 bits, scaled by a power of two,
    gives the integer. *)
Lemma round_canon s p (k : N) :
  Zpos (digits2_pos p) <= 53 →
  binary_round prec emax s (Pos.shiftl p k) (- Z.of_N k) = canon s p.
Proof.
  intros Hd. unfold binary_round, shl_align.
  rewrite digits_shiftl.
  replace (Zpos (digits2_pos p) + Z.of_N k + - Z.of_N k) with (Zpos (digits2_pos p)) by lia.
  pose proof (digits_bounds p) as Hb.
  assert (H1 : 1 <= Zpos (digits2_pos p)) by lia.
  rewrite fexp_digits by lia.
  destruct (Zpos (digits2_pos p) - 53 - - Z.of_N k) as [|n|n] eqn:En.
  - apply round_aux_canon; lia.
  - apply round_aux_canon; lia.
  - change (Pos.iter xO (Pos.shiftl p k) n) with (Pos.shiftl (Pos.shiftl p k) (Npos n)).
    rewrite shiftl_add.
    replace (Zpos (digits2_pos p) - 53) with (- Z.of_N (k + Npos n)) by lia.
    apply round_aux_canon; lia.
Qed.

Lemma normalize_ofZ (z : Z) (k : N) :
  Z.abs z < 2 ^ 53 →
  binary_normalize prec emax (z * 2 ^ Z.of_N k) (- Z.of_N k) false = ofZ z.
Proof.
  intros Hz. destruct z as [|p|p]; [done| |].
  - assert (Hd : Zpos (digits2_pos p) <= 53) by (apply digits_le; lia).
    rewrite <- Zpos_shiftl. simpl. by apply round_canon.
  - assert (Hd : Zpos (digits2_pos p) <= 53) by (apply digits_le; lia).
    change (Zneg p) with (- Zpos p). rewrite Z.mul_opp_l, <- Zpos_shiftl.
    simpl. by apply round_canon.
Qed.

Lemma digits_ge p n : 0 <= n → 2 ^ n <= Zpos p → n + 1 <= Zpos (digits2_pos p).
Proof.
  intros Hn Hp. destruct (Z.le_gt_cases (n + 1) (Zpos (digits2_pos p))) as [|Hlt]; [done|].
  pose proof (digits_bounds p) as [_ Hhi].
  assert (H : 2 ^ Zpos (digits2_pos p) <= 2 ^ n) by (apply Z.pow_le_mono_r; lia).
  exfalso. apply (Z.lt_irrefl (Zpos p)).
  eapply Z.lt_le_trans; [exact Hhi|]. by etransitivity.
Qed.

Lemma digits_53 p : Zpos p < 2 ^ 53 → Zpos (digits2_pos p) <= 53.
Proof. apply digits_le. lia. Qed.

(** *** Products *)

Lemma SFmul_canon p q :
  Zpos p * Zpos q < 2 ^ 53 →
  SFmul prec emax (canon false p) (canon false q) = canon false (p * q).
Proof.
  intros Hpq.
  pose proof (digits_bounds p) as [Hp _]. pose proof (digits_bounds q) as [Hq _].
  pose proof (Pos2Z.is_pos p). pose proof (Pos2Z.is_pos q).
  assert (Hdp : Zpos (digits2_pos p) <= 53) by (apply digits_53; nia).
  assert (Hdq : Zpos (digits2_pos q) <= 53) by (apply digits_53; nia).
  assert (Hd : Zpos (digits2_pos (p * q)) <= 53) by (apply digits_53; lia).
  assert (Hlow : Zpos (digits2_pos p) + Zpos (digits2_pos q) - 1
                 <= Zpos (digits2_pos (p * q))).
  { pose proof (digits_bounds p) as [_ Hp']. 
    assert (1 <= Zpos (digits2_pos p)) by lia.
    assert (1 <= Zpos (digits2_pos q)) by lia.
    replace (Zpos (digits2_pos p) + Zpos (digits2_pos q) - 1)
      with ((Zpos (digits2_pos p) - 1) + (Zpos (digits2_pos q) - 1) + 1) by lia.
    apply digits_ge; [lia|].
    rewrite Z.pow_add_r, Pos2Z.inj_mul by lia.
    apply Z.mul_le_mono_nonneg; try assumption; apply Z.pow_nonneg; lia. }
  unfold SFmul. unfold canon at 1. unfold canon at 1. cbn [xorb].
  set (jp := Z.to_N (53 - Zpos (digits2_pos p))).
  set (jq := Z.to_N (53 - Zpos (digits2_pos q))).
  assert (Em : (Pos.shiftl p jp * Pos.shiftl q jq)%positive = Pos.shiftl (p * q) (jp + jq)).
  { apply Pos2Z.inj. rewrite Pos2Z.inj_mul, !Zpos_shiftl, Pos2Z.inj_mul, N2Z.inj_add.
    rewrite Z.pow_add_r by lia. ring. }
  rewrite Em.
  replace (Zpos (digits2_pos p) - 53 + (Zpos (digits2_pos q) - 53))
    with (- Z.of_N (jp + jq)) by lia.
  apply round_aux_canon; lia.
Qed.

(** *** Sums and differences *)

Lemma ofZ_signed s p : ofZ (signed s p) = canon s p.
Proof. by destruct s. Qed.

Lemma aligned p (K : Z) :
  Zpos (digits2_pos p) <= 53 → 53 - Zpos (digits2_pos p) <= K →
  Zpos (fst (shl_align (Pos.shiftl p (Z.to_N (53 - Zpos (digits2_pos p))))
                       (Zpos (digits2_pos p) - 53) (- K)))
  = Zpos p * 2 ^ K.
Proof.
  intros Hd HK. unfold shl_align.
  destruct (- K - (Zpos (digits2_pos p) - 53)) as [|n|n] eqn:En; [|lia|].
  - cbn [fst]. rewrite Zpos_shiftl. do 2 f_equal. lia.
  - cbn [fst].
    change (Pos.iter xO ?m n) with (Pos.shiftl m (Npos n)).
    rewrite shiftl_add, Zpos_shiftl. do 2 f_equal. lia.
Qed.

Lemma cond_Zopp_signed s p K :
  cond_Zopp s (Zpos p * 2 ^ K) = signed s p * 2 ^ K.
Proof. destruct s; simpl; [|done]. change (Zneg p) with (- Zpos p). lia. Qed.

Lemma SFadd_canon sa p sb q :
  Zpos p < 2 ^ 53 → Zpos q < 2 ^ 53 → Z.abs (signed sa p + signed sb q) < 2 ^ 53 →
  SFadd prec emax (canon sa p) (canon sb q) = ofZ (signed sa p + signed sb q).
Proof.
  intros Hp Hq Hs.
  assert (Hdp : Zpos (digits2_pos p) <= 53) by by apply digits_53.
  assert (Hdq : Zpos (digits2_pos q) <= 53) by by apply digits_53.
  unfold SFadd, canon.
  set (K := - Z.min (Zpos (digits2_pos p) - 53) (Zpos (digits2_pos q) - 53)).
  replace (Z.min (Zpos (digits2_pos p) - 53) (Zpos (digits2_pos q) - 53)) with (- K) by lia.
  rewrite !aligned, !cond_Zopp_signed by lia.
  rewrite <- Z.mul_add_distr_r.
  replace K with (Z.of_N (Z.to_N K)) by lia.
  by apply normalize_ofZ.
Qed.

Lemma SFsub_canon sa p sb q :
  Zpos p < 2 ^ 53 → Zpos q < 2 ^ 53 → Z.abs (signed sa p - signed sb q) < 2 ^ 53 →
  SFsub prec emax (canon sa p) (canon sb q) = ofZ (signed sa p - signed sb q).
Proof.
  intros Hp Hq Hs.
  assert (Hdp : Zpos (digits2_pos p) <= 53) by by apply digits_53.
  assert (Hdq : Zpos (digits2_pos q) <= 53) by by apply digits_53.
  unfold SFsub, canon.
  set (K := - Z.min (Zpos (digits2_pos p) - 53) (Zpos (digits2_pos q) - 53)).
  replace (Z.min (Zpos (digits2_pos p) - 53) (Zpos (digits2_pos q) - 53)) with (- K) by lia.
  rewrite !aligned, !cond_Zopp_signed by lia.
  rewrite <- Z.mul_sub_distr_r.
  replace K with (Z.of_N (Z.to_N K)) by lia.
  by apply normalize_ofZ.
Qed.

Lemma signed_of (z : Z) : z ≠ 0 → ∃ s p, z = signed s p ∧ Zpos p = Z.abs z.
Proof.
  destruct z as [|p|p]; [done| |]; intros _.
  - by exists false, p.
  - by exists true, p.
Qed.

Lemma SFadd_ofZ a b :
  Z.abs a < 2 ^ 53 → Z.abs b < 2 ^ 53 → Z.abs (a + b) < 2 ^ 53 →
  SFadd prec emax (ofZ a) (ofZ b) = ofZ (a + b).
Proof.
  intros Ha Hb Hab.
  destruct (Z.eq_dec a 0) as [->|Ha0].
  { destruct b; reflexivity. }
  destruct (Z.eq_dec b 0) as [->|Hb0].
  { rewrite Z.add_0_r. destruct a; reflexivity. }
  destruct (signed_of a Ha0) as (sa & p & -> & Ep).
  destruct (signed_of b Hb0) as (sb & q & -> & Eq).
  rewrite !ofZ_signed. apply SFadd_canon; lia.
Qed.

Lemma SFsub_ofZ a b :
  Z.abs a < 2 ^ 53 → Z.abs b < 2 ^ 53 → Z.abs (a - b) < 2 ^ 53 →
  SFsub prec emax (ofZ a) (ofZ b) = ofZ (a - b).
Proof.
  intros Ha Hb Hab.
  destruct (Z.eq_dec b 0) as [->|Hb0].
  { rewrite Z.sub_0_r. destruct a; reflexivity. }
  destruct (Z.eq_dec a 0) as [->|Ha0].
  { destruct b as [|q|q]; [done|reflexivity|reflexivity]. }
  destruct (signed_of a Ha0) as (sa & p & -> & Ep).
  destruct (signed_of b Hb0) as (sb & q & -> & Eq).
  rewrite !ofZ_signed. apply SFsub_canon; lia.
Qed.

Lemma SFmul_ofZ a b :
  0 <= a → 0 <= b → a * b < 2 ^ 53 →
  SFmul prec emax (ofZ a) (ofZ b) = ofZ (a * b).
Proof.
  intros Ha Hb Hab.
  destruct a as [|p|p]; [by destruct b| |lia].
  destruct b as [|q|q]; [done| |lia].
  by apply SFmul_canon.
Qed.

(** *** Comparisons *)

Lemma canon_compare p q :
  Zpos p < 2 ^ 53 → Zpos q < 2 ^ 53 →
  match Zpos (digits2_pos p) - 53 ?= Zpos (digits2_pos q) - 53 with
  | Lt => Lt
  | Gt => Gt
  | Eq => Pos.compare_cont Eq (Pos.shiftl p (Z.to_N (53 - Zpos (digits2_pos p))))
                              (Pos.shiftl q (Z.to_N (53 - Zpos (digits2_pos q))))
  end = (p ?= q)%positive.
Proof.
  intros Hp Hq. symmetry. rewrite Pos2Z.inj_compare.
  assert (Hdp : Zpos (digits2_pos p) <= 53) by by apply digits_53.
  assert (Hdq : Zpos (digits2_pos q) <= 53) by by apply digits_53.
  pose proof (digits_bounds p) as [Hp1 Hp2]. pose proof (digits_bounds q) as [Hq1 Hq2].
  destruct (Z.compare_spec (Zpos (digits2_pos p) - 53) (Zpos (digits2_pos q) - 53))
    as [E|L|G].
  - assert (E' : digits2_pos p = digits2_pos q) by lia.
    rewrite <- E'. set (j := Z.to_N (53 - Zpos (digits2_pos p))).
    change (Pos.compare_cont Eq ?a ?b) with (Pos.compare a b).
    rewrite (Pos2Z.inj_compare (Pos.shiftl p j)), !Zpos_shiftl.
    assert (Hc : 0 < 2 ^ Z.of_N j) by (apply Z.pow_pos_nonneg; lia).
    generalize dependent (2 ^ Z.of_N j). intros c Hc.
    destruct (Z.compare_spec (Zpos p) (Zpos q)); symmetry;
      [apply Z.compare_eq_iff | apply Z.compare_lt_iff | apply Z.compare_gt_iff]; nia.
  - apply Z.compare_lt_iff.
    eapply Z.lt_le_trans; [exact Hp2|]. etransitivity; [|exact Hq1].
    apply Z.pow_le_mono_r; lia.
  - apply Z.compare_gt_iff.
    eapply Z.lt_le_trans; [exact Hq2|]. etransitivity; [|exact Hp1].
    apply Z.pow_le_mono_r; lia.
Qed.

Lemma SFcompare_ofZ a b :
  Z.abs a < 2 ^ 53 → Z.abs b < 2 ^ 53 →
  SFcompare (ofZ a) (ofZ b) = Some (a ?= b).
Proof.
  intros Ha Hb.
  destruct a as [|p|p], b as [|q|q]; try reflexivity.
  - unfold ofZ, canon, SFcompare. rewrite canon_compare by lia. reflexivity.
  - unfold ofZ, canon, SFcompare.
    change (Zneg p ?= Zneg q) with (CompOpp (p ?= q)%positive).
    rewrite <- (canon_compare p q) by lia.
    by destruct (_ ?= _).
Qed.

Lemma SFltb_ofZ a b :
  Z.abs a < 2 ^ 53 → Z.abs b < 2 ^ 53 → SFltb (ofZ a) (ofZ b) = (a <? b).
Proof.
  intros Ha Hb. unfold SFltb, Z.ltb. by rewrite SFcompare_ofZ.
Qed.

Lemma SFleb_ofZ a b :
  Z.abs a < 2 ^ 53 → Z.abs b < 2 ^ 53 → SFleb (ofZ a) (ofZ b) = (a <=? b).
Proof.
  intros Ha Hb. unfold SFleb, Z.leb. rewrite SFcompare_ofZ by done.
  by destruct (a ?= b).
Qed.

(** *** The primitive operations on floats that hold integers *)

Section Holds.

Import PrimFloat FloatAxioms.

Lemma holds_of_uint63 (n : Uint63.int) :
  Uint63.to_Z n < 2 ^ 53 → holds (of_uint63 n) (Uint63.to_Z n).
Proof.
  intros Hn. unfold holds. rewrite of_uint63_spec.
  pose proof (Uint63.to_Z_bounded n).
  replace (Uint63.to_Z n) with (Uint63.to_Z n * 2 ^ Z.of_N 0) at 1 by (simpl; lia).
  apply (normalize_ofZ _ 0). lia.
Qed.

Lemma holds_of_Z (z : Z) :
  0 <= z < 2 ^ 53 → holds (of_uint63 (Uint63.of_Z z)) z.
Proof.
  intros Hz.
  assert (E : Uint63.to_Z (Uint63.of_Z z) = z).
  { rewrite Uint63.of_Z_spec. apply Z.mod_small.
    change Uint63.wB with 9223372036854775808. lia. }
  rewrite <- E at 2. apply holds_of_uint63. lia.
Qed.

Lemma holds_add f g a b :
  holds f a → holds g b →
  Z.abs a < 2 ^ 53 → Z.abs b < 2 ^ 53 → Z.abs (a + b) < 2 ^ 53 →
  holds (f + g) (a + b).
Proof.
  unfold holds. intros Hf Hg Ha Hb Hab.
  rewrite add_spec, Hf, Hg. by apply SFadd_ofZ.
Qed.

Lemma holds_sub f g a b :
  holds f a → holds g b →
  Z.abs a < 2 ^ 53 → Z.abs b < 2 ^ 53 → Z.abs (a - b) < 2 ^ 53 →
  holds (f - g) (a - b).
Proof.
  unfold holds. intros Hf Hg Ha Hb Hab.
  rewrite sub_spec, Hf, Hg. by apply SFsub_ofZ.
Qed.

Lemma holds_mul f g a b :
  holds f a → holds g b → 0 <= a → 0 <= b → a * b < 2 ^ 53 →
  holds (f * g) (a * b).
Proof.
  unfold holds. intros Hf Hg Ha Hb Hab.
  rewrite mul_spec, Hf, Hg. by apply SFmul_ofZ.
Qed.

Lemma holds_ltb f g a b :
  holds f a → holds g b → Z.abs a < 2 ^ 53 → Z.abs b < 2 ^ 53 →
  (f <? g)%float = (a <? b).
Proof.
  unfold holds. intros Hf Hg Ha Hb.
  rewrite ltb_spec, Hf, Hg. by apply SFltb_ofZ.
Qed.

Lemma holds_leb f g a b :
  holds f a → holds g b → Z.abs a < 2 ^ 53 → Z.abs b < 2 ^ 53 →
  (f <=? g)%float = (a <=? b).
Proof.
  unfold holds. intros Hf Hg Ha Hb.
  rewrite leb_spec, Hf, Hg. by apply SFleb_ofZ.
Qed.

End Holds.

End Binary64Facts.

(** ** The corner tests on doubles *)

Module MaskOnDoubles.

Import PrimFloat Binary64 Binary64Facts.

Ltac below53 := change (2 ^ 53) with 9007199254740992; lia.

Lemma holds_number (z : Z) : 0 <= z < 2 ^ 53 → holds (Double.number z) z.
Proof. apply holds_of_Z. Qed.

Lemma holds_0 : holds 0%float 0.
Proof. reflexivity. Qed.

Lemma holds_1 : holds 1%float 1.
Proof. reflexivity. Qed.

Lemma holds_3 : holds 3%float 3.
Proof. reflexivity. Qed.

Lemma holds_4 : holds 4%float 4.
Proof. reflexivity. Qed.

(** One corner test: [dx * dx + dy * dy > r * r]. *)
Lemma corner_test (fr fdx fdy : float) (r dx dy : Z) :
  holds fr r → holds fdx dx → holds fdy dy →
  0 <= r <= 33554432 → 0 <= dx <= 33554432 → 0 <= dy <= 33554432 →
  Double.gtb (fdx * fdx + fdy * fdy) (fr * fr) = (dx * dx + dy * dy >? r * r).
Proof.
  intros Fr Fdx Fdy Hr Hdx Hdy. unfold Double.gtb. rewrite Z.gtb_ltb.
  assert (0 <= r * r <= 1125899906842624) by nia.
  assert (0 <= dx * dx <= 1125899906842624) by nia.
  assert (0 <= dy * dy <= 1125899906842624) by nia.
  apply holds_ltb.
  - apply holds_mul; try done; below53.
  - apply holds_add; [apply holds_mul; try done; below53..| | |]; below53.
  - below53.
  - below53.
Qed.

Lemma shouldBeTransparent_on_doubles width height r x y :
  exactRange width height r → onGrid width height x y →
  Double.shouldBeTransparent (Double.number width) (Double.number height)
                             (Double.number r) (Double.number x) (Double.number y)
  = shouldBeTransparent width height r x y.
Proof.
  intros (Hw & Hh & Hr) [Hx Hy].
  change (2 ^ 25) with 33554432 in *.
  pose proof (holds_number width ltac:(below53)) as Fw.
  pose proof (holds_number height ltac:(below53)) as Fh.
  pose proof (holds_number r ltac:(below53)) as Fr.
  pose proof (holds_number x ltac:(below53)) as Fx.
  pose proof (holds_number y ltac:(below53)) as Fy.
  generalize dependent (Double.number width). intros fw Fw.
  generalize dependent (Double.number height). intros fh Fh.
  generalize dependent (Double.number r). intros fr Fr.
  generalize dependent (Double.number x). intros fx Fx.
  generalize dependent (Double.number y). intros fy Fy.
  assert (Fwr : holds (fw - fr) (width - r)) by (apply holds_sub; try done; below53).
  assert (Fhr : holds (fh - fr) (height - r)) by (apply holds_sub; try done; below53).
  assert (Fwr1 : holds (fw - fr - 1) (width - r - 1))
    by (apply holds_sub; try done; below53).
  assert (Fhr1 : holds (fh - fr - 1) (height - r - 1))
    by (apply holds_sub; try done; below53).
  assert (Fdx1 : holds (fr - fx) (r - x)) by (apply holds_sub; try done; below53).
  assert (Fdy1 : holds (fr - fy) (r - y)) by (apply holds_sub; try done; below53).
  assert (Fdx2 : holds (fx - (fw - fr - 1)) (x - (width - r - 1)))
    by (apply holds_sub; try done; below53).
  assert (Fdy2 : holds (fy - (fh - fr - 1)) (y - (height - r - 1)))
    by (apply holds_sub; try done; below53).
  unfold Double.shouldBeTransparent, shouldBeTransparent, Double.geb.
  rewrite (holds_ltb fx fr x r), (holds_ltb fy fr y r),
    (holds_leb (fw - fr) fx (width - r) x),
    (holds_leb (fh - fr) fy (height - r) y) by (done || below53).
  rewrite !Z.geb_leb.
  destruct (Z.ltb_spec x r), (Z.ltb_spec y r),
    (Z.leb_spec (width - r) x), (Z.leb_spec (height - r) y);
    cbv beta zeta iota delta [andb];
    rewrite ?(corner_test fr (fr - fx) (fr - fy) r (r - x) (r - y)),
      ?(corner_test fr (fx - (fw - fr - 1)) (fr - fy) r (x - (width - r - 1)) (r - y)),
      ?(corner_test fr (fr - fx) (fy - (fh - fr - 1)) r (r - x) (y - (height - r - 1))),
      ?(corner_test fr (fx - (fw - fr - 1)) (fy - (fh - fr - 1)) r
                    (x - (width - r - 1)) (y - (height - r - 1)))
      by (done || lia);
    reflexivity.
Qed.

(** The index of the alpha byte is computed exactly as well. *)
Lemma alphaIndex_on_doubles width height r x y :
  exactRange width height r → onGrid width height x y →
  holds (Double.alphaIndex (Double.number width) (Double.number x) (Double.number y))
        ((y * width + x) * 4 + 3).
Proof.
  intros (Hw & Hh & Hr) [Hx Hy].
  change (2 ^ 25) with 33554432 in *.
  assert (0 <= y * width <= 1125899906842624) by nia.
  unfold Double.alphaIndex.
  apply holds_add; [|apply holds_3|below53..].
  apply holds_mul; [|apply holds_4|below53..].
  apply holds_add; [|apply holds_number; below53|below53..].
  apply holds_mul; try (apply holds_number); below53.
Qed.

Lemma number_eqb_0 (r : Z) :
  0 <= r < 2 ^ 53 → PrimFloat.eqb (Double.number r) 0 = (r =? 0).
Proof.
  intros Hr. rewrite FloatAxioms.eqb_spec, (holds_number r Hr), holds_0.
  unfold SpecFloat.SFeqb. rewrite SFcompare_ofZ by below53.
  by destruct r.
Qed.

Lemma foldl_ext_in {A B} (f g : A → B → A) (l : list B) (a : A) :
  (∀ a x, x ∈ l → f a x = g a x) → foldl f a l = foldl g a l.
Proof.
  revert a. induction l as [|x l IH]; intros a H; simpl; [done|].
  rewrite H by apply list_elem_of_here.
  apply IH. intros a' x' Hx'. apply H. by apply list_elem_of_further.
Qed.

(** In the exact range the mask on doubles is the mask on integers. *)
Lemma applyRoundedCorners_on_doubles (data : Buf.t) width height r :
  exactRange width height r →
  Double.applyRoundedCorners data width height (Double.number r)
  = applyRoundedCorners data width height r.
Proof.
  intros Hrange. unfold Double.applyRoundedCorners, applyRoundedCorners.
  rewrite number_eqb_0 by (destruct Hrange as (_ & _ & Hr); below53).
  destruct (r =? 0); [done|]. cbv zeta.
  apply foldl_ext_in. intros b y Hy%elem_of_seqZ.
  unfold Double.maskRow, maskRow.
  apply foldl_ext_in. intros b' x Hx%elem_of_seqZ.
  unfold Double.maskPixel, maskPixel.
  rewrite shouldBeTransparent_on_doubles; [done|done|]. unfold onGrid. lia.
Qed.

End MaskOnDoubles.

(** C1 (amended): for a buffer of [width * height] RGBA8 pixels, with
    sides and a radius [r > 0] in the exact range, [applyRoundedCorners]
    as the engine computes it (corner tests on doubles) is the mask on
    integers, and it sets the alpha of a pixel to 0 exactly when the
    pixel lies in one of the four corner squares and is strictly outside
    that square's arc ([dx² + dy² > r²] for the square's own [dx],
    [dy]); every other pixel keeps its alpha.  A boundary pixel
    ([dx² + dy² = r²] in its square) keeps its alpha whenever the radius is
    at most [floor(min(width, height) / 2)], the case in which the corner
    squares do not overlap. *)
Theorem applyRoundedCorners_alpha (data : Buf.t) width height r x y :
  0 < r → exactRange width height r →
  rgba8 data width height → onGrid width height x y →
  Double.applyRoundedCorners data width height (Double.number r)
  = applyRoundedCorners data width height r
  ∧ (outsideArc width height r x y →
     alpha (Double.applyRoundedCorners data width height (Double.number r)) width x y
     = Some x00)
  ∧ (¬ outsideArc width height r x y →
     alpha (Double.applyRoundedCorners data width height (Double.number r)) width x y
     = alpha data width x y)
  ∧ (∀ c, r <= Z.min width height / 2 →
          inSquare c width height r x y →
          dist2 c width height r x y = r * r →
          alpha (Double.applyRoundedCorners data width height (Double.number r)) width x y
          = alpha data width x y).
Proof.
  intros Hr Hrange Hlen Hg.
  rewrite (MaskOnDoubles.applyRoundedCorners_on_doubles data width height r Hrange).
  split; [done|].
  assert (Hr0 : r ≠ 0) by lia.
  pose proof (alpha_applyRoundedCorners data width height r x y Hr0 Hg) as Ha.
  destruct (alpha_defined data width height x y Hlen Hg) as [a0 Ha0].
  assert (Hkeep : ¬ outsideArc width height r x y →
                  alpha (applyRoundedCorners data width height r) width x y
                  = alpha data width x y).
  { intros Hn. rewrite Ha.
    destruct (shouldBeTransparent width height r x y) eqn:Ht; [|done].
    apply shouldBeTransparent_outsideArc in Ht. contradiction. }
  split; [|split].
  - intros Ho. apply shouldBeTransparent_outsideArc in Ho.
    by rewrite Ha, Ho, Ha0.
  - exact Hkeep.
  - intros c Hclamp Hin Hd. apply Hkeep. intros [c' [Hin' Hd']].
    rewrite (corner_squares_disjoint _ _ _ _ _ c c' Hclamp Hin Hin') in Hd. lia.
Qed.

(** C2 (amended): for sides and a radius in the exact range, the output
    of [applyRoundedCorners] as the engine computes it has the length of
    the input; the R, G and B bytes of every pixel are unchanged; a pixel
    of the grid outside all four corner squares keeps all four bytes; a
    byte that differs from the input is the alpha byte, now 0, of a grid
    pixel strictly outside the rounded rectangle; and the alpha byte of
    every grid pixel strictly outside the rounded rectangle is 0. *)
Theorem applyRoundedCorners_frame (data : Buf.t) width height r :
  exactRange width height r →
  length (Double.applyRoundedCorners data width height (Double.number r)) = length data
  ∧ (∀ x y c, 0 <= c < 3 →
       channel (Double.applyRoundedCorners data width height (Double.number r))
               width x y c
       = channel data width x y c)
  ∧ (∀ x y c, onGrid width height x y → 0 <= c <= 3 →
       (∀ corner, ¬ inSquare corner width height r x y) →
       channel (Double.applyRoundedCorners data width height (Double.number r))
               width x y c
       = channel data width x y c)
  ∧ (∀ k : nat,
       Double.applyRoundedCorners data width height (Double.number r) !! k = data !! k
       ∨ (Double.applyRoundedCorners data width height (Double.number r) !! k = Some x00
          ∧ ∃ x y, onGrid width height x y
                   ∧ outsideArc width height r x y
                   ∧ (y * width + x) * 4 + 3 = Z.of_nat k))
  ∧ (∀ x y, onGrid width height x y → outsideArc width height r x y →
       alpha (Double.applyRoundedCorners data width height (Double.number r)) width x y
       = zeroed (alpha data width x y)).
Proof.
  intros Hrange.
  rewrite (MaskOnDoubles.applyRoundedCorners_on_doubles data width height r Hrange).
  destruct (Z.eq_dec r 0) as [->|Hr].
  { unfold applyRoundedCorners; simpl. repeat split; auto.
    intros x y [Hx Hy] [c [Hin _]]. destruct c; unfold inSquare in Hin; lia. }
  assert (Hlook : ∀ k : nat,
            masked width height r k = false →
            applyRoundedCorners data width height r !! k = data !! k).
  { intros k Hm. by rewrite applyRoundedCorners_lookup, Hm. }
  assert (Hget : ∀ i, (∀ k : nat, i = Z.of_nat k → masked width height r k = false) →
            Buf.get (applyRoundedCorners data width height r) i = Buf.get data i).
  { intros i Hm. unfold Buf.get. destruct (Z.leb_spec 0 i); [|done].
    apply Hlook, Hm. lia. }
  split; [|split; [|split; [|split]]].
  - unfold applyRoundedCorners. destruct (r =? 0); [done|].
    assert (Hrow : ∀ l (b : Buf.t) y,
              length (foldl (λ res x, maskPixel width height r res y x) b l) = length b).
    { induction l as [|a l IH]; intros b y; simpl; [done|].
      rewrite IH. unfold maskPixel.
      destruct (shouldBeTransparent _ _ _ _ _); [apply Buf_length_set | done]. }
    generalize data. induction (seqZ 0 height) as [|y l IH]; intros b; simpl; [done|].
    rewrite IH. apply Hrow.
  - intros x y c Hc. apply Hget. intros k Hk.
    apply not_true_is_false. intros Hm.
    apply masked_true in Hm as (x' & y' & _ & _ & Hk'). lia.
  - intros x y c Hg Hc Hout. apply Hget. intros k Hk.
    apply not_true_is_false. intros Hm.
    apply masked_true in Hm as (x' & y' & Hg' & Ht & Hk').
    assert (c = 3) as -> by lia.
    destruct Hg as [Hx Hy], Hg' as [Hx' Hy'].
    destruct (pixel_offset_inj width x y x' y') as [-> ->]; [lia..|].
    apply shouldBeTransparent_outsideArc in Ht as [corner [Hin _]].
    by apply (Hout corner).
  - intros k. rewrite applyRoundedCorners_lookup by done.
    destruct (masked width height r k) eqn:Hm; [|by left].
    destruct (data !! k) eqn:Hd; [|by left]. right. split; [done|].
    apply masked_true in Hm as (x & y & Hg & Ht & Hk).
    exists x, y. by rewrite <- shouldBeTransparent_outsideArc.
  - intros x y Hg Ho. rewrite alpha_applyRoundedCorners by done.
    apply shouldBeTransparent_outsideArc in Ho. by rewrite Ho.
Qed.

(** C3: with radius 0 the function returns its input. *)
Theorem applyRoundedCorners_radius_zero (data : Buf.t) width height :
  applyRoundedCorners data width height 0 = data.
Proof. reflexivity. Qed.

(** ** The radius of a request and of a variant *)

Lemma clampRadius_cases (n : JSNumber) :
  clampRadius n =
  match n with
  | NaN => Finite 40
  | PosInfinity => Finite 256
  | NegInfinity => Finite 0
  | Finite q =>
      if Qeq_bool q 0 then Finite 40
      else Finite (let m := if Qle_bool 256 q then 256 else q in
                   if Qle_bool 0 m then m else 0)%Q
  end.
Proof.
  destruct n as [| | |q]; try reflexivity.
  unfold clampRadius, js_or, falsy. destruct (Qeq_bool q 0); reflexivity.
Qed.

Lemma clampRadius_finite (n : JSNumber) :
  ∃ q, clampRadius n = Finite q ∧ (0 <= q)%Q ∧ (q <= 256)%Q.
Proof.
  rewrite clampRadius_cases. destruct n as [| | |q].
  - exists 40%Q. repeat split; discriminate.
  - exists 256%Q. repeat split; discriminate.
  - exists 0%Q. repeat split; discriminate.
  - destruct (Qeq_bool q 0).
    + exists 40%Q. repeat split; discriminate.
    + eexists. split; [reflexivity|].
      destruct (Qle_bool 256 q) eqn:H256; simpl.
      * split; discriminate.
      * destruct (Qle_bool 0 q) eqn:H0.
        -- apply Qle_bool_iff in H0. split; [done|].
           apply Qnot_lt_le. intros Hlt. apply Qlt_le_weak, Qle_bool_iff in Hlt.
           congruence.
        -- split; discriminate.
Qed.

Lemma radius_nonneg (n : JSNumber) : (0 <= valueOf (clampRadius n))%Q.
Proof. destruct (clampRadius_finite n) as (q & -> & H0 & _). exact H0. Qed.

Lemma previewBaseSize_range width height :
  0 < previewBaseSize width height <= 192.
Proof.
  unfold previewBaseSize, orDefault.
  destruct width as [w|], height as [h|];
    repeat match goal with |- context [(?n =? 0)%N] => destruct (N.eqb_spec n 0) end;
    lia.
Qed.

Lemma Math_round_nearest (q : Q) :
  (inject_Z (Math_round q) - (1 # 2) <= q)%Q ∧ (q < inject_Z (Math_round q) + (1 # 2))%Q.
Proof.
  unfold Math_round. set (k := Qfloor (q + (1 # 2))). split.
  - apply Qplus_le_l with (z := (1 # 2)%Q).
    assert (E : (inject_Z k - (1 # 2) + (1 # 2) == inject_Z k)%Q) by ring.
    rewrite E. apply Qfloor_le.
  - apply Qplus_lt_l with (z := (1 # 2)%Q).
    assert (E : (inject_Z k + (1 # 2) + (1 # 2) == inject_Z (k + 1))%Q)
      by (rewrite inject_Z_plus; ring).
    rewrite E. apply Qlt_floor.
Qed.

Lemma Math_round_le p q : (p <= q)%Q → Math_round p <= Math_round q.
Proof.
  intros H. unfold Math_round. apply Qfloor_resp_le.
  by apply Qplus_le_l.
Qed.

Lemma Math_floor_half (m : Z) : Math_floor (inject_Z m / 2) = m / 2.
Proof.
  unfold Math_floor, Qfloor, Qdiv, Qmult, Qinv, inject_Z; simpl.
  by rewrite Z.mul_1_r.
Qed.

Lemma scaled_le (radius : Q) (base s1 s2 : Z) :
  (0 <= radius)%Q → 0 < base → s1 <= s2 →
  (radius * (inject_Z s1 / inject_Z base) <= radius * (inject_Z s2 / inject_Z base))%Q.
Proof.
  intros Hr Hb Hs.
  rewrite !(Qmult_comm radius). apply Qmult_le_compat_r; [|done].
  unfold Qdiv. apply Qmult_le_compat_r.
  - by rewrite <- Zle_Qle.
  - apply Qinv_le_0_compat. change 0%Q with (inject_Z 0). rewrite <- Zle_Qle. lia.
Qed.

(** ** The radius on doubles against the exact radius *)

Lemma scaledRadius_integer (r b s : Z) :
  0 < b → scaledRadius (inject_Z r) b s s = (2 * r * s + b) / (2 * b).
Proof.
  intros Hb. unfold scaledRadius, Math_round. rewrite Z.min_id.
  assert (Hpos : 2 * b = Z.pos (Z.to_pos (2 * b))) by (rewrite Z2Pos.id; lia).
  assert (E : (inject_Z r * (inject_Z s / inject_Z b) + (1 # 2)
               == (2 * r * s + b) # Z.to_pos (2 * b))%Q).
  { rewrite (Qmake_Qdiv (2 * r * s + b)), <- Hpos.
    rewrite !inject_Z_plus, !inject_Z_mult.
    assert (Hnz : ¬ (inject_Z b == 0)%Q).
    { change 0%Q with (inject_Z 0). rewrite inject_Z_injective. lia. }
    field. exact Hnz. }
  rewrite (Qfloor_comp _ _ E). unfold Qfloor. by rewrite <- Hpos.
Qed.

Module DoubleFacts.

Import Uint63.

Lemma agree_true :
  forallb (λ s, forallb (λ b, forallb (λ r,
    Double.effectiveRadius r b s =? Double.exact r b s)%uint63
      Double.requests) Double.bases) Double.sides = true.
Proof. vm_compute. reflexivity. Qed.

Lemma agree_on (r b s : int) :
  In s Double.sides → In b Double.bases → In r Double.requests →
  Double.effectiveRadius r b s = Double.exact r b s.
Proof.
  intros Hs Hb Hr. apply eqb_spec.
  pose proof agree_true as H.
  rewrite forallb_forall in H. specialize (H s Hs). cbv beta in H.
  rewrite forallb_forall in H. specialize (H b Hb). cbv beta in H.
  rewrite forallb_forall in H. exact (H r Hr).
Qed.

Lemma to_Z_of_Z_small (z : Z) : 0 <= z <= 512 → to_Z (of_Z z) = z.
Proof.
  intros Hz. rewrite of_Z_spec. apply Z.mod_small.
  change wB with 9223372036854775808. lia.
Qed.

Lemma exact_Z (r b s : Z) :
  0 <= r <= 256 → 1 <= b <= 192 → 0 <= s <= 512 →
  to_Z (Double.exact (of_Z r) (of_Z b) (of_Z s))
  = Z.min ((2 * r * s + b) / (2 * b)) (s / 2).
Proof.
  intros Hr Hb Hs. unfold Double.exact.
  assert (Hw : wB = 9223372036854775808) by reflexivity.
  assert (Er := to_Z_of_Z_small r ltac:(lia)).
  assert (Eb := to_Z_of_Z_small b ltac:(lia)).
  assert (Es := to_Z_of_Z_small s ltac:(lia)).
  set (R := of_Z r) in *. set (B := of_Z b) in *. set (S := of_Z s) in *.
  assert (E2 : to_Z 2%uint63 = 2) by reflexivity.
  assert (En : to_Z (2 * R * S + B)%uint63 = 2 * r * s + b).
  { rewrite add_spec, !mul_spec, E2, Er, Es, Eb.
    rewrite (Z.mod_small (2 * r)) by lia.
    rewrite (Z.mod_small (2 * r * s)) by nia.
    apply Z.mod_small. nia. }
  assert (Ed : to_Z (2 * B)%uint63 = 2 * b).
  { rewrite mul_spec, E2, Eb. apply Z.mod_small. lia. }
  cbv zeta.
  destruct (lebP ((2 * R * S + B) / (2 * B))%uint63 (S / 2)%uint63) as [Hle|Hgt];
    rewrite !div_spec, ?En, ?Ed, ?Es, ?E2 in *; lia.
Qed.

(** For an integer request the double arithmetic of the handler gives the
    effective radius of the exact model, for every reference size and
    every square side of the tables. *)
Lemma effectiveRadius_exact (r b s : Z) :
  0 <= r <= 256 → 1 <= b <= 192 → s ∈ [16; 32; 48; 180; 192; 512] →
  to_Z (Double.effectiveRadius (of_Z r) (of_Z b) (of_Z s))
  = effectiveRadius (inject_Z r) b s s s s.
Proof.
  intros Hr Hb Hs.
  assert (Hs' : 0 <= s <= 512).
  { repeat (apply elem_of_cons in Hs as [->|Hs]; [lia|]). by apply elem_of_nil in Hs. }
  assert (Hs_in : In (of_Z s) Double.sides).
  { apply list_elem_of_In. unfold Double.sides. by apply list_elem_of_fmap_2. }
  assert (Hb_in : In (of_Z b) Double.bases).
  { apply list_elem_of_In. unfold Double.bases.
    apply list_elem_of_fmap_2, elem_of_seqZ. lia. }
  assert (Hr_in : In (of_Z r) Double.requests).
  { apply list_elem_of_In. unfold Double.requests.
    apply list_elem_of_fmap_2, elem_of_seqZ. lia. }
  rewrite (agree_on (of_Z r) (of_Z b) (of_Z s) Hs_in Hb_in Hr_in).
  rewrite exact_Z by lia.
  unfold effectiveRadius. rewrite scaledRadius_integer by lia.
  by rewrite Z.min_id, Math_floor_half.
Qed.

(** Before the clamp the two can differ: a product that is a tie exactly
    may fall just below it in doubles.  With radius 95, reference 152 and
    side 180 the exact product is 112.5, the double one
    112.49999999999999; both are above the clamp 90. *)
Lemma tie_above_clamp :
  Double.scaledRadius 95 152 180 = 112%uint63
  ∧ scaledRadius 95 152 180 180 = 113
  ∧ Double.effectiveRadius 95 152 180 = 90%uint63.
Proof. repeat split. Qed.

End DoubleFacts.

Lemma scaledRadius_comp (p q : Q) (base targetWidth targetHeight : Z) :
  (p == q)%Q →
  scaledRadius p base targetWidth targetHeight
  = scaledRadius q base targetWidth targetHeight.
Proof.
  intros E. unfold scaledRadius, Math_round. apply Qfloor_comp. by rewrite E.
Qed.

(** C4 (amended): when the radius of the request is an integer [r], the
    radius with which a square variant of side [s] is masked, computed on
    doubles as the handler does, is the integer nearest to
    [r * s / previewBaseSize] (a tie going up), clamped to [floor(s / 2)];
    the exact model gives the same radius, and it is the radius
    [resizeAndApplyRoundedCorners] hands to the mask when sharp returns a
    raster of the target size.  For a 512x512 source and a request of 40
    (reference size 192) the 32x32 variant gets radius 7, below the clamp
    16. *)
Theorem variant_radius (n : JSNumber) (r : Z) (width height : option N) (s : Z) :
  (valueOf (clampRadius n) == inject_Z r)%Q →
  s ∈ [16; 32; 48; 180; 192; 512] →
  (∃ k,
     nearest (inject_Z r * inject_Z s / inject_Z (previewBaseSize width height)) k
     ∧ Uint63.to_Z (Double.effectiveRadius (Uint63.of_Z r)
                      (Uint63.of_Z (previewBaseSize width height)) (Uint63.of_Z s))
       = Z.min k (s / 2)
     ∧ effectiveRadius (valueOf (clampRadius n)) (previewBaseSize width height) s s s s
       = Z.min k (s / 2)
     ∧ ∀ (sharp_resize_raw : Buf.t → Z → Z → Fit → Result Raw)
         (sharp_raw_png : Buf.t → Z → Z → Result Buf.t) (base : Buf.t) (raw : Raw),
         sharp_resize_raw base s s Cover = Ok raw →
         info_width raw = s → info_height raw = s →
         resizeAndApplyRoundedCorners sharp_resize_raw sharp_raw_png base
           (valueOf (clampRadius n)) (previewBaseSize width height) s false
         = sharp_raw_png (applyRoundedCorners (raw_data raw) s s (Z.min k (s / 2))) s s)
  ∧ (previewBaseSize (Some 512%N) (Some 512%N) = 192
     ∧ clampRadius (Finite (inject_Z 40)) = Finite (inject_Z 40)
     ∧ nearest (inject_Z 40 * inject_Z 32 / inject_Z 192) 7
     ∧ Uint63.to_Z (Double.effectiveRadius (Uint63.of_Z 40) (Uint63.of_Z 192)
                                           (Uint63.of_Z 32)) = 7
     ∧ 7 < 32 / 2).
Proof.
  intros Hreq Hs.
  pose proof (previewBaseSize_range width height) as Hb.
  set (b := previewBaseSize width height) in *.
  assert (Hr : 0 <= r <= 256).
  { destruct (clampRadius_finite n) as (q & Hq & H0 & H256).
    rewrite Hq in Hreq. simpl in Hreq. rewrite Hreq in H0, H256.
    change 0%Q with (inject_Z 0) in H0. change 256%Q with (inject_Z 256) in H256.
    rewrite <- Zle_Qle in H0, H256. lia. }
  assert (Eeff : effectiveRadius (valueOf (clampRadius n)) b s s s s
                 = effectiveRadius (inject_Z r) b s s s s).
  { unfold effectiveRadius. by rewrite (scaledRadius_comp _ _ b s s Hreq). }
  assert (Hex : effectiveRadius (inject_Z r) b s s s s
                = Z.min (scaledRadius (inject_Z r) b s s) (s / 2)).
  { unfold effectiveRadius. by rewrite Z.min_id, Math_floor_half. }
  split.
  - exists (scaledRadius (inject_Z r) b s s). split; [|split; [|split]].
    + unfold nearest, scaledRadius. rewrite Z.min_id.
      assert (E : (inject_Z r * inject_Z s / inject_Z b
                   == inject_Z r * (inject_Z s / inject_Z b))%Q) by (unfold Qdiv; ring).
      rewrite E. apply Math_round_nearest.
    + rewrite DoubleFacts.effectiveRadius_exact by (done || lia). exact Hex.
    + by rewrite Eeff.
    + intros sharp_resize_raw sharp_raw_png base raw Hraw Hw Hh.
      unfold resizeAndApplyRoundedCorners. rewrite Hraw.
      cbv beta iota zeta delta [mbind Result_bind].
      by rewrite Hw, Hh, Eeff, Hex.
  - repeat split. discriminate.
Qed.

Lemma effectiveRadius_le (radius : Q) (base s1 s2 : Z) :
  (0 <= radius)%Q → 0 < base → s1 <= s2 →
  effectiveRadius radius base s1 s1 s1 s1 <= effectiveRadius radius base s2 s2 s2 s2.
Proof.
  intros Hr Hb Hs. unfold effectiveRadius, scaledRadius.
  rewrite !Math_floor_half, !Z.min_id.
  apply Z.min_le_compat.
  - by apply Math_round_le, scaled_le.
  - by apply Z.div_le_mono.
Qed.

(** C5: for a fixed request and source, the radius of a square variant
    does not decrease when the variant grows; on doubles the same holds
    for an integer request between any two sides of the tables. *)
Theorem effectiveRadius_monotone (n : JSNumber) (width height : option N) (s1 s2 : Z) :
  s1 <= s2 →
  effectiveRadius (valueOf (clampRadius n)) (previewBaseSize width height) s1 s1 s1 s1
  <= effectiveRadius (valueOf (clampRadius n)) (previewBaseSize width height) s2 s2 s2 s2
  ∧ (∀ r b, 0 <= r <= 256 → 1 <= b <= 192 →
       s1 ∈ [16; 32; 48; 180; 192; 512] → s2 ∈ [16; 32; 48; 180; 192; 512] →
       Uint63.to_Z (Double.effectiveRadius (Uint63.of_Z r) (Uint63.of_Z b)
                                           (Uint63.of_Z s1))
       <= Uint63.to_Z (Double.effectiveRadius (Uint63.of_Z r) (Uint63.of_Z b)
                                              (Uint63.of_Z s2))).
Proof.
  intros Hs. split.
  - apply effectiveRadius_le; [apply radius_nonneg | | done].
    apply previewBaseSize_range.
  - intros r b Hr Hb H1 H2.
    rewrite !DoubleFacts.effectiveRadius_exact by done.
    apply effectiveRadius_le; [|lia|done].
    change 0%Q with (inject_Z 0). rewrite <- Zle_Qle. lia.
Qed.

(** ** The requested radius *)

Lemma clampRadius_unchanged (q : Q) :
  (valueOf (clampRadius (Finite q)) == q)%Q ↔ (0 < q)%Q ∧ (q <= 256)%Q.
Proof.
  rewrite clampRadius_cases.
  destruct (Qeq_bool q 0) eqn:Hz; simpl.
  - apply Qeq_bool_iff in Hz. rewrite Hz. split.
    + intros H. vm_compute in H. discriminate H.
    + intros [H _]. vm_compute in H. discriminate H.
  - assert (Hnz : ¬ (q == 0)%Q) by (intros H; apply Qeq_bool_iff in H; congruence).
    destruct (Qle_bool 256 q) eqn:H256; simpl.
    + apply Qle_bool_iff in H256. split.
      * intros H. rewrite <- H. split; [reflexivity | discriminate].
      * intros [_ H]. by apply Qle_antisym.
    + assert (Hlt : (q < 256)%Q).
      { apply Qnot_le_lt. intros H. apply Qle_bool_iff in H. congruence. }
      destruct (Qle_bool 0 q) eqn:H0.
      * apply Qle_bool_iff in H0. split; [|reflexivity].
        intros _. split; [|by apply Qlt_le_weak].
        apply Qle_lt_or_eq in H0 as [H0|H0]; [done|]. by symmetry in H0.
      * assert (Hneg : (q < 0)%Q).
        { apply Qnot_le_lt. intros H. apply Qle_bool_iff in H. congruence. }
        split.
        -- intros H. symmetry in H. contradiction.
        -- intros [H _]. exfalso. eapply Qlt_irrefl, Qlt_trans; eauto.
Qed.

(** C10 (amended): an absent radius field, one that does not convert to a
    number, and one that converts to 0 all give the radius 40, so a
    request of 0 is never used as it is; a number is used unchanged
    exactly when it lies in (0, 256], which for an integer is [1, 256];
    numbers above 256, and positive infinity, give 256. *)
Theorem requested_radius (StringToNumber : string → JSNumber) :
  clampRadius (Number_ StringToNumber None) = Finite 40
  ∧ (∀ s, StringToNumber s = NaN →
          clampRadius (Number_ StringToNumber (Some s)) = Finite 40)
  ∧ (∀ s q, StringToNumber s = Finite q → (q == 0)%Q →
            clampRadius (Number_ StringToNumber (Some s)) = Finite 40)
  ∧ (∀ q, (valueOf (clampRadius (Finite q)) == q)%Q ↔ (0 < q)%Q ∧ (q <= 256)%Q)
  ∧ (∀ z, (valueOf (clampRadius (Finite (inject_Z z))) == inject_Z z)%Q
          ↔ 1 <= z <= 256)
  ∧ (∀ q, (256 < q)%Q → clampRadius (Finite q) = Finite 256)
  ∧ clampRadius PosInfinity = Finite 256.
Proof.
  split; [reflexivity|]. split; [|split; [|split; [|split; [|split]]]].
  - intros s Hs. simpl. by rewrite Hs.
  - intros s q Hs Hq. simpl. rewrite Hs, clampRadius_cases.
    apply Qeq_bool_iff in Hq. by rewrite Hq.
  - apply clampRadius_unchanged.
  - intros z. rewrite clampRadius_unchanged.
    change 0%Q with (inject_Z 0). change 256%Q with (inject_Z 256).
    rewrite <- Zlt_Qlt, <- Zle_Qle. lia.
  - intros q Hq. rewrite clampRadius_cases.
    assert (Hnz : Qeq_bool q 0 = false).
    { apply not_true_is_false. intros H. apply Qeq_bool_iff in H.
      rewrite H in Hq. discriminate Hq. }
    assert (Hle : Qle_bool 256 q = true) by (by apply Qle_bool_iff, Qlt_le_weak).
    by rewrite Hnz, Hle.
  - reflexivity.
Qed.

(** C6 (what the code does for the radius field "0"): a field that
    converts to 0 gives the radius 40; for a 512x512 source the 32x32
    variant is then masked with radius 7, and the alpha of its corner
    pixel (0, 0) becomes 0 whatever the resized raster holds. *)
Theorem zero_request_is_masked (raw : Buf.t) :
  clampRadius (Finite 0) = Finite 40
  ∧ effectiveRadius (valueOf (clampRadius (Finite 0)))
                    (previewBaseSize (Some 512%N) (Some 512%N)) 32 32 32 32 = 7
  ∧ alpha (applyRoundedCorners raw 32 32 7) 32 0 0 = zeroed (alpha raw 32 0 0)
  ∧ alpha (applyRoundedCorners (replicate 4096 xff) 32 32 7) 32 0 0 = Some x00.
Proof.
  assert (Hg : onGrid 32 32 0 0) by (unfold onGrid; lia).
  assert (H7 : 7 ≠ 0) by lia.
  split; [reflexivity|]. split; [reflexivity|]. split.
  - by rewrite (alpha_applyRoundedCorners raw 32 32 7 0 0 H7 Hg).
  - by rewrite (alpha_applyRoundedCorners _ 32 32 7 0 0 H7 Hg).
Qed.

(** ** Validation *)

Lemma validate_cases (file : File) :
  validate (Some file) =
  if (MAX_FILE_SIZE <? file_size file)%N then inl (JsonResponse 400 msgTooLarge)
  else if includes validTypes (file_type file) then inr file
       else inl (JsonResponse 400 msgBadType).
Proof.
  unfold validate. destruct (_ <? _)%N; [done|].
  by destruct (includes validTypes (file_type file)).
Qed.

(** The checks on a file: above 10 MiB, or a declared type that is none
    of the four of [validTypes], gives status 400; otherwise the file
    passes. *)
Lemma validate_spec (file : File) :
  ((10 * 1024 * 1024 < file_size file)%N ∨ file_type file ∉ validTypes →
     ∃ msg, validate (Some file) = inl (JsonResponse 400 msg))
  ∧ ((file_size file <= 10 * 1024 * 1024)%N → file_type file ∈ validTypes →
     validate (Some file) = inr file).
Proof.
  rewrite validate_cases.
  assert (Hinc : includes validTypes (file_type file) = true ↔ file_type file ∈ validTypes).
  { unfold includes. rewrite existsb_exists, list_elem_of_In. split.
    - intros (s & Hin & He). apply String.eqb_eq in He. by subst.
    - intros Hin. exists (file_type file). split; [done | apply String.eqb_refl]. }
  change (10 * 1024 * 1024)%N with MAX_FILE_SIZE. split.
  - intros [Hbig|Hty].
    + apply N.ltb_lt in Hbig. rewrite Hbig. eauto.
    + destruct (_ <? _)%N; [eauto|].
      destruct (includes validTypes (file_type file)); [|eauto].
      exfalso. by apply Hty, Hinc.
  - intros Hsz Hty. apply N.ltb_ge in Hsz. rewrite Hsz.
    apply Hinc in Hty. by rewrite Hty.
Qed.

(** ** The handler *)

Lemma bind_Ok {A B} (m : Result A) (f : A → Result B) (b : B) :
  m ≫= f = Ok b → ∃ a, m = Ok a ∧ f a = Ok b.
Proof. destruct m as [a|e]; simpl; [eauto | discriminate]. Qed.

Lemma for_of_cons {A S} (a : A) (l : list A) (body : S → A → Result S) (s s2 : S) :
  for_of (a :: l) body s = Ok s2 → ∃ s1, body s a = Ok s1 ∧ for_of l body s1 = Ok s2.
Proof. simpl. apply bind_Ok. Qed.

Lemma for_of_nil {A S} (body : S → A → Result S) (s s2 : S) :
  for_of [] body s = Ok s2 → s2 = s.
Proof. simpl. congruence. Qed.

Section HandlerFacts.

Context (StringToNumber : string → JSNumber)
        (sharp_metadata : Buf.t → Result Metadata)
        (sharp_png : SharpInput → Result Buf.t)
        (sharp_resize_raw : Buf.t → Z → Z → Fit → Result Raw)
        (sharp_resize_png : Buf.t → Z → Z → Fit → Result Buf.t)
        (sharp_raw_png : Buf.t → Z → Z → Result Buf.t)
        (toIco : list Buf.t → Result Buf.t)
        (generateAsync : Zip → Result Buf.t)
        (manifestText : string → string → string → string)
        (readmeText : string → string → string → Q → Z → string → string)
        (localTime isoDate : string).

#[local] Abbreviation variant := (resizeAndApplyRoundedCorners sharp_resize_raw sharp_raw_png).
#[local] Abbreviation generate' :=
  (generate StringToNumber sharp_metadata sharp_png sharp_resize_raw sharp_resize_png
            sharp_raw_png toIco generateAsync manifestText readmeText localTime isoDate).
#[local] Abbreviation Stages' :=
  (Stages StringToNumber sharp_metadata sharp_png sharp_resize_raw sharp_resize_png
          sharp_raw_png toIco generateAsync).
#[local] Abbreviation POST' :=
  (POST StringToNumber sharp_metadata sharp_png sharp_resize_raw sharp_resize_png
        sharp_raw_png toIco generateAsync manifestText readmeText localTime isoDate).

(** Inversion of a successful run: one step of a sequence, and a whole
    loop over a table whose turns each make one call. *)
Ltac bind_inv H x Hx := apply bind_Ok in H as (x & Hx & H).

Ltac loop_inv H :=
  repeat (let Hstep := fresh "Hstep" in
          apply for_of_cons in H as (? & Hstep & H);
          apply bind_Ok in Hstep as (? & ? & Hstep);
          injection Hstep as <-);
  apply for_of_nil in H; subst.

Lemma generate_Ok (fd : FormData) (file : File) (response : Response) :
  generate' fd file = Ok response →
  ∃ metadata base v16 v32 v48 v180 v192 v512 ogp ico body zip name,
    Stages' fd file metadata base v16 v32 v48 v180 v192 v512 ogp ico body zip
    ∧ response = ZipResponse zip body name.
Proof.
  unfold generate. intros H.
  bind_inv H metadata Hmd. bind_inv H base Hbase.
  bind_inv H zip1 Hpub. bind_inv H zip2 Happ.
  bind_inv H icos Hico. bind_inv H ico Htoico. bind_inv H body Hbody.
  injection H as <-.
  unfold PUBLIC_SIZES in Hpub. loop_inv Hpub.
  unfold APP_SIZES in Happ. loop_inv Happ.
  unfold ICO_SIZES in Hico. loop_inv Hico.
  repeat match goal with
         | H1 : ?call = Ok ?a, H2 : ?call = Ok ?b |- _ =>
             rewrite H1 in H2; injection H2 as <-
         end.
  do 13 eexists. split; [|reflexivity].
  constructor; eauto.
Qed.


Lemma POST_Ok (fd : FormData) :
  POST' (Ok fd) =
  match validate (fd_image fd) with
  | inl response => response
  | inr file =>
      match generate' fd file with
      | Ok response => response
      | Throw e => JsonResponse 500 (errorMessage e)
      end
  end.
Proof. unfold POST, handle; simpl. by destruct (validate (fd_image fd)). Qed.

Lemma validate_inl (image : option File) (response : Response) :
  validate image = inl response → ∃ msg, response = JsonResponse 400 msg.
Proof.
  unfold validate. destruct image as [file|]; [|intros [= <-]; eauto].
  destruct (_ <? _)%N; [intros [= <-]; eauto|].
  destruct (negb _); [intros [= <-]; eauto | discriminate].
Qed.

(** C7 (amended): a file above 10 MiB, or one whose declared type is not
    image/png, image/jpeg, image/jpg or image/svg+xml, is answered with
    status 400 whatever the libraries would do (nothing is decoded, no
    archive is made); a file of at most 10 MiB with one of these four
    types passes the checks and the handler goes on to generate. *)
Theorem POST_validation (fd : FormData) (file : File) :
  fd_image fd = Some file →
  ((10 * 1024 * 1024 < file_size file)%N ∨ file_type file ∉ validTypes →
     ∃ msg, POST' (Ok fd) = JsonResponse 400 msg)
  ∧ ((file_size file <= 10 * 1024 * 1024)%N → file_type file ∈ validTypes →
     validate (fd_image fd) = inr file
     ∧ POST' (Ok fd) = match generate' fd file with
                       | Ok response => response
                       | Throw e => JsonResponse 500 (errorMessage e)
                       end).
Proof.
  intros Himg. rewrite POST_Ok, Himg.
  destruct (validate_spec file) as [Hbad Hgood]. split.
  - intros H. destruct (Hbad H) as [msg ->]. eauto.
  - intros Hsz Hty. by rewrite (Hgood Hsz Hty).
Qed.

(** C8: the response is either one error response, or the archive with
    the complete set of files (every variant, both copies of the
    container, the manifest and the README), and then every stage of the
    request succeeded; a source that sharp cannot decode gives the one
    500 response carrying the decoder's message, and so does whatever
    else is thrown while the archive is generated. *)
Theorem POST_all_or_nothing (formData : Result FormData) :
  ((∃ status msg, POST' formData = JsonResponse status msg)
   ∨ (∃ fd file metadata base v16 v32 v48 v180 v192 v512 ogp ico body zip name,
        formData = Ok fd
        ∧ validate (fd_image fd) = inr file
        ∧ Stages' fd file metadata base v16 v32 v48 v180 v192 v512 ogp ico body zip
        ∧ zip.*1 = fullSet
        ∧ POST' formData = ZipResponse zip body name))
  ∧ (∀ fd file e,
       formData = Ok fd → validate (fd_image fd) = inr file →
       sharp_metadata (file_bytes file) = Throw e
       ∨ (∃ metadata, sharp_metadata (file_bytes file) = Ok metadata
                      ∧ sharp_png (sourceOf file) = Throw e)
       ∨ generate' fd file = Throw e →
       POST' formData = JsonResponse 500 (errorMessage e)).
Proof.
  split.
  - destruct formData as [fd|e]; [|left; simpl; eauto].
    rewrite POST_Ok. destruct (validate (fd_image fd)) as [response|file] eqn:Hv.
    { left. apply validate_inl in Hv as [msg ->]. eauto. }
    destruct (generate' fd file) as [response|e] eqn:Hg; [|left; eauto].
    right. apply generate_Ok in Hg
      as (metadata & base & v16 & v32 & v48 & v180 & v192 & v512 & ogp & ico
          & body & zip & name & Hst & ->).
    exists fd, file, metadata, base, v16, v32, v48, v180, v192, v512, ogp, ico,
      body, zip, name.
    do 3 (split; [done|]). split; [|done].
    destruct (st_zip _ _ _ _ _ _ _ _ _ _ _ _ _ _ _ _ _ _ _ _ _ _ Hst)
      as (manifest & readme & ->).
    reflexivity.
  - intros fd file e -> Hv Hfail. rewrite POST_Ok, Hv.
    destruct Hfail as [Hmd|[(metadata & Hmd & Hpng)|Hgen]].
    + unfold generate. by rewrite Hmd.
    + unfold generate. rewrite Hmd; simpl. by rewrite Hpng.
    + by rewrite Hgen.
Qed.


End HandlerFacts.

(** * Instances *)

(** ** The corner mask on small rasters *)

(** C1 on an opaque 10x10 raster with radius 5: the corner pixel (0, 0)
    is cut; (2, 1), where [dx = 3], [dy = 4], lies on the arc and is
    kept. *)
Lemma applyRoundedCorners_alpha_witness :
  (0 < 5 ∧ exactRange 10 10 5 ∧ rgba8 (Sample.opaque 100) 10 10
   ∧ onGrid 10 10 0 0 ∧ onGrid 10 10 2 1)
  ∧ alpha (Double.applyRoundedCorners (Sample.opaque 100) 10 10 (Double.number 5))
          10 0 0 = Some x00
  ∧ alpha (Double.applyRoundedCorners (Sample.opaque 100) 10 10 (Double.number 5))
          10 2 1
    = alpha (Sample.opaque 100) 10 2 1.
Proof.
  assert (Hr : 0 < 5) by lia.
  assert (Hrange : exactRange 10 10 5)
    by (unfold exactRange; change (2 ^ 25) with 33554432; lia).
  assert (Hlen : rgba8 (Sample.opaque 100) 10 10) by reflexivity.
  assert (H00 : onGrid 10 10 0 0) by (unfold onGrid; lia).
  assert (H21 : onGrid 10 10 2 1) by (unfold onGrid; lia).
  split; [auto|]. split.
  - apply (applyRoundedCorners_alpha (Sample.opaque 100) 10 10 5 0 0
             Hr Hrange Hlen H00).
    exists TopLeft. unfold inSquare, dist2; simpl. lia.
  - apply (applyRoundedCorners_alpha (Sample.opaque 100) 10 10 5 2 1
             Hr Hrange Hlen H21)
      with (c := TopLeft).
    + vm_compute. discriminate.
    + unfold inSquare. lia.
    + reflexivity.
Defined.

(** C1 as stated fails for a radius above half the side: on an opaque 3x3
    raster with radius 5 the pixel (2, 1) is on the arc of the top left
    square ([dx = 3], [dy = 4]), yet its alpha is set to 0, because it is
    strictly outside the arc of the top right square ([dx = 5],
    [dy = 4]). *)
Lemma boundary_pixel_cut_by_overlapping_square :
  (0 < 5 ∧ rgba8 (Sample.opaque 9) 3 3 ∧ onGrid 3 3 2 1)
  ∧ inSquare TopLeft 3 3 5 2 1
  ∧ dist2 TopLeft 3 3 5 2 1 = 5 * 5
  ∧ alpha (Sample.opaque 9) 3 2 1 = Some xff
  ∧ alpha (applyRoundedCorners (Sample.opaque 9) 3 3 5) 3 2 1 = Some x00
  ∧ inSquare TopRight 3 3 5 2 1
  ∧ dist2 TopRight 3 3 5 2 1 = 41.
Proof.
  unfold onGrid, inSquare, rgba8. repeat split; try lia; reflexivity.
Qed.

(** C2 on an opaque 4x4 raster with radius 1: the green byte of the
    corner pixel and the alpha byte of the inner pixel (2, 2) are
    unchanged, the alpha byte of the corner pixel is 0. *)
Lemma applyRoundedCorners_frame_witness :
  exactRange 4 4 1
  ∧ channel (Double.applyRoundedCorners (Sample.opaque 16) 4 4 (Double.number 1))
            4 0 0 1 = Some xff
  ∧ channel (Double.applyRoundedCorners (Sample.opaque 16) 4 4 (Double.number 1))
            4 2 2 3 = Some xff
  ∧ alpha (Double.applyRoundedCorners (Sample.opaque 16) 4 4 (Double.number 1))
          4 0 0 = Some x00.
Proof.
  assert (Hrange : exactRange 4 4 1)
    by (unfold exactRange; change (2 ^ 25) with 33554432; lia).
  destruct (applyRoundedCorners_frame (Sample.opaque 16) 4 4 1 Hrange)
    as (_ & Hrgb & Hout & _ & Hcut).
  split; [exact Hrange|]. split; [|split].
  - rewrite Hrgb by lia. reflexivity.
  - rewrite Hout; [reflexivity | unfold onGrid; lia | lia |].
    intros []; unfold inSquare; lia.
  - rewrite Hcut; [reflexivity | unfold onGrid; lia |].
    exists TopLeft. unfold inSquare, dist2; simpl. lia.
Defined.

(** C2 as stated fails outside the exact range, in both directions.  With
    the radius [2^600] the square of the radius is infinite on doubles and
    no test [dx² + dy² > r²] holds: the one pixel of an opaque 1x1 raster
    is strictly outside the arc, yet it stays opaque.  And on a raster of
    3 x 611696560 pixels with radius 305860646 the test flags the pixel
    (1, 305835913), for which [dx² + dy² = r² - 2] in the two upper corner
    squares, which both hold it: on doubles the sum [dx * dx + dy * dy]
    comes out above [r * r]. *)
Lemma huge_radius_keeps_corner :
  (FloatOps.Prim2SF Double.two_600 = SpecFloat.S754_finite false (2 ^ 52) 548
   ∧ 2 ^ 52 * 2 ^ 548 = 2 ^ 600)
  ∧ outsideArc 1 1 (2 ^ 600) 0 0
  ∧ alpha [xff; xff; xff; xff] 1 0 0 = Some xff
  ∧ alpha (Double.applyRoundedCorners [xff; xff; xff; xff] 1 1 Double.two_600) 1 0 0
    = Some xff
  ∧ onGrid 3 611696560 1 305835913
  ∧ Double.shouldBeTransparent (Double.number 3) (Double.number 611696560)
      (Double.number 305860646) (Double.number 1) (Double.number 305835913) = true
  ∧ inSquare TopLeft 3 611696560 305860646 1 305835913
  ∧ dist2 TopLeft 3 611696560 305860646 1 305835913 = 305860646 * 305860646 - 2
  ∧ ¬ outsideArc 3 611696560 305860646 1 305835913.
Proof.
  split; [split; reflexivity|]. split.
  { exists TopLeft. unfold inSquare, dist2; simpl. repeat split; reflexivity. }
  split; [reflexivity|]. split; [reflexivity|].
  split; [unfold onGrid; lia|]. split; [reflexivity|].
  split; [unfold inSquare; lia|]. split; [reflexivity|].
  intros H. apply shouldBeTransparent_outsideArc in H. discriminate H.
Qed.

(** ** Radii *)

(** C4 for the request 40 on a 512x512 source (reference size 192): the
    32x32 variant gets radius 7. *)
Lemma variant_radius_witness :
  ((valueOf (clampRadius (Finite 40)) == inject_Z 40)%Q
   ∧ 32 ∈ [16; 32; 48; 180; 192; 512])
  ∧ ∃ k,
      nearest (inject_Z 40 * inject_Z 32
               / inject_Z (previewBaseSize (Some 512%N) (Some 512%N))) k
      ∧ Uint63.to_Z (Double.effectiveRadius (Uint63.of_Z 40)
                       (Uint63.of_Z (previewBaseSize (Some 512%N) (Some 512%N)))
                       (Uint63.of_Z 32))
        = Z.min k (32 / 2)
      ∧ Z.min k (32 / 2) = 7.
Proof.
  assert (Hreq : (valueOf (clampRadius (Finite 40)) == inject_Z 40)%Q) by reflexivity.
  assert (Hs : 32 ∈ [16; 32; 48; 180; 192; 512])
    by apply list_elem_of_further, list_elem_of_here.
  split; [auto|].
  destruct (variant_radius (Finite 40) 40 (Some 512%N) (Some 512%N) 32 Hreq Hs)
    as ((k & Hk & Hdouble & _) & _).
  exists k. split; [exact Hk|]. split; [exact Hdouble|].
  rewrite <- Hdouble. reflexivity.
Defined.

(** C4 as stated fails for a request that is no integer.  The field 5.5
    is used as it is; with a source 132 pixels wide the reference size is
    132 and for the 180x180 icon the exact quotient [5.5 * 180 / 132] is
    the tie 7.5, which rounds to 8; on doubles [180 / 132] is rounded
    first, the product falls just below 7.5 and the icon is masked with
    radius 7. *)
Lemma tie_request_rounds_down_on_doubles :
  clampRadius (Finite (11 # 2)) = Finite (11 # 2)
  ∧ (FloatOps.Prim2SF Double.five_and_a_half = SpecFloat.S754_finite false 6192449487634432 (-50)
     ∧ (6192449487634432 # 2 ^ 50 == 11 # 2)%Q)
  ∧ previewBaseSize (Some 132%N) (Some 132%N) = 132
  ∧ Uint63.to_Z (Double.effectiveRadiusOf Double.five_and_a_half (Uint63.of_Z 132) (Uint63.of_Z 180))
    = 7
  ∧ nearest ((11 # 2) * inject_Z 180 / inject_Z 132) 8
  ∧ Z.min 8 (180 / 2) = 8.
Proof.
  repeat split. discriminate.
Qed.

(** C5 for a request of 40 on a 512x512 source, from side 16 to side 32. *)
Lemma effectiveRadius_monotone_witness :
  16 <= 32
  ∧ effectiveRadius (valueOf (clampRadius (Finite 40)))
                    (previewBaseSize (Some 512%N) (Some 512%N)) 16 16 16 16
    <= effectiveRadius (valueOf (clampRadius (Finite 40)))
                       (previewBaseSize (Some 512%N) (Some 512%N)) 32 32 32 32.
Proof.
  assert (H : 16 <= 32) by lia.
  split; [exact H|].
  exact (proj1 (effectiveRadius_monotone (Finite 40) (Some 512%N) (Some 512%N)
                  16 32 H)).
Defined.

(** C10 with the sample conversion: a field that is no number and the
    field "0" both give 40. *)
Lemma requested_radius_witness :
  (Sample.number "abc" = NaN ∧ Sample.number "0" = Finite 0)
  ∧ clampRadius (Number_ Sample.number (Some "abc"%string)) = Finite 40
  ∧ clampRadius (Number_ Sample.number (Some "0"%string)) = Finite 40.
Proof.
  destruct (requested_radius Sample.number) as (_ & Hnan & Hzero & _).
  split; [split; reflexivity|]. split.
  - apply Hnan. reflexivity.
  - apply (Hzero "0"%string 0%Q); reflexivity.
Defined.

(** C10 as stated fails below 1: a field that converts to 1/2 is used
    unchanged although 1/2 is not in [1, 256]. *)
Lemma half_pixel_request_used_unchanged :
  clampRadius (Finite (1 # 2)) = Finite (1 # 2)
  ∧ (1 # 2 < 1)%Q.
Proof. split; reflexivity. Qed.

(** ** Requests *)

(** C7 as stated fails for the type image/jpg: it is not one of the three
    types the specification lists, and the file passes the checks. *)
Lemma jpg_alias_passes_validation :
  includes listedTypes (file_type Sample.jpgFile) = false
  ∧ (file_size Sample.jpgFile <= 10 * 1024 * 1024)%N
  ∧ validate (Some Sample.jpgFile) = inr Sample.jpgFile.
Proof. repeat split. vm_compute. discriminate. Qed.

(** C7 on the sample library: a 1-byte PNG passes the checks, a PNG one
    byte above 10 MiB is answered with status 400. *)
Lemma POST_validation_witness :
  (fd_image (Sample.form Sample.pngFile) = Some Sample.pngFile
   ∧ fd_image (Sample.form Sample.largeFile) = Some Sample.largeFile)
  ∧ validate (fd_image (Sample.form Sample.pngFile)) = inr Sample.pngFile
  ∧ ∃ msg,
      POST Sample.number Sample.metadata Sample.png Sample.resize_raw
           Sample.resize_png Sample.raw_png Sample.ico Sample.zipped
           Sample.manifest Sample.readme "12:00:00" "2025-01-01"
           (Ok (Sample.form Sample.largeFile))
      = JsonResponse 400 msg.
Proof.
  split; [split; reflexivity|]. split.
  - apply (POST_validation Sample.number Sample.metadata Sample.png Sample.resize_raw
             Sample.resize_png Sample.raw_png Sample.ico Sample.zipped
             Sample.manifest Sample.readme "12:00:00" "2025-01-01"
             (Sample.form Sample.pngFile) Sample.pngFile eq_refl).
    + vm_compute. discriminate.
    + apply list_elem_of_here.
  - apply (POST_validation Sample.number Sample.metadata Sample.png Sample.resize_raw
             Sample.resize_png Sample.raw_png Sample.ico Sample.zipped
             Sample.manifest Sample.readme "12:00:00" "2025-01-01"
             (Sample.form Sample.largeFile) Sample.largeFile eq_refl).
    left. reflexivity.
Defined.

(** C8 with a decoder that rejects the source: one 500 response with the
    decoder's message. *)
Lemma POST_all_or_nothing_witness :
  validate (fd_image (Sample.form Sample.pngFile)) = inr Sample.pngFile
  ∧ POST Sample.number Sample.corrupt Sample.png Sample.resize_raw
         Sample.resize_png Sample.raw_png Sample.ico Sample.zipped
         Sample.manifest Sample.readme "12:00:00" "2025-01-01"
         (Ok (Sample.form Sample.pngFile))
    = JsonResponse 500 "Input buffer contains unsupported image format".
Proof.
  split; [reflexivity|].
  apply (POST_all_or_nothing Sample.number Sample.corrupt Sample.png Sample.resize_raw
           Sample.resize_png Sample.raw_png Sample.ico Sample.zipped
           Sample.manifest Sample.readme "12:00:00" "2025-01-01"
           (Ok (Sample.form Sample.pngFile)))
    with (fd := Sample.form Sample.pngFile) (file := Sample.pngFile)
         (e := ErrorObject "Input buffer contains unsupported image format").
  - reflexivity.
  - reflexivity.
  - left. reflexivity.
Defined.


(** * Further properties *)

(** ** The corner mask *)

(** A pixel a corner test flags for a radius is flagged by the same corner
    for every larger radius. *)
Lemma outsideArc_mono width height r r' x y :
  0 <= r <= r' → outsideArc width height r x y → outsideArc width height r' x y.
Proof.
  intros Hr [c [Hin Hd]]. exists c.
  assert (Hdx : cornerDx c width r' x = cornerDx c width r x + (r' - r))
    by (destruct c; simpl; lia).
  assert (Hdy : cornerDy c height r' y = cornerDy c height r y + (r' - r))
    by (destruct c; simpl; lia).
  assert (Ha : 1 <= cornerDx c width r x)
    by (destruct c; unfold inSquare in Hin; simpl; lia).
  assert (Hb : 1 <= cornerDy c height r y)
    by (destruct c; unfold inSquare in Hin; simpl; lia).
  split.
  - destruct c; unfold inSquare in *; lia.
  - unfold dist2 in *. rewrite Hdx, Hdy.
    set (a := cornerDx c width r x) in *. set (b := cornerDy c height r y) in *.
    assert (Hab : r < a + b) by nia.
    nia.
Qed.

Lemma masked_mono width height r r' (k : nat) :
  0 <= r <= r' → masked width height r k = true → masked width height r' k = true.
Proof.
  intros Hr Hm. apply masked_true in Hm as (x & y & Hg & Ht & Hk).
  apply masked_true. exists x, y. repeat split; try apply Hg; [|done].
  apply shouldBeTransparent_outsideArc.
  apply (outsideArc_mono width height r r'); [done|].
  by apply shouldBeTransparent_outsideArc.
Qed.

Lemma applyRoundedCorners_radius0 (data : Buf.t) width height :
  applyRoundedCorners data width height 0 = data.
Proof. reflexivity. Qed.

(** X1: for sides and radii in the exact range, masking twice, with radii
    [r <= r'] in either order, is masking once with the larger radius; in
    particular masking is idempotent. *)
Theorem applyRoundedCorners_twice (data : Buf.t) width height r r' :
  0 <= r <= r' → exactRange width height r' →
  Double.applyRoundedCorners
    (Double.applyRoundedCorners data width height (Double.number r))
    width height (Double.number r')
  = Double.applyRoundedCorners data width height (Double.number r')
  ∧ Double.applyRoundedCorners
      (Double.applyRoundedCorners data width height (Double.number r'))
      width height (Double.number r)
    = Double.applyRoundedCorners data width height (Double.number r').
Proof.
  intros Hr Hrange'.
  assert (Hrange : exactRange width height r)
    by (unfold exactRange in *; lia).
  rewrite !(MaskOnDoubles.applyRoundedCorners_on_doubles _ width height r Hrange).
  rewrite !(MaskOnDoubles.applyRoundedCorners_on_doubles _ width height r' Hrange').
  destruct (Z.eq_dec r 0) as [->|Hr0]; [by rewrite !applyRoundedCorners_radius0|].
  assert (Hr0' : r' ≠ 0) by lia.
  split; apply list_eq; intros k; rewrite !applyRoundedCorners_lookup by done.
  - destruct (masked width height r k) eqn:Hm.
    + rewrite (masked_mono width height r r' k Hr Hm). apply zeroed_idem.
    + done.
  - destruct (masked width height r k) eqn:Hm.
    + rewrite (masked_mono width height r r' k Hr Hm). apply zeroed_idem.
    + done.
Qed.




(** X3: whatever the radius [r > 0] in the exact range, the four corner
    pixels of the raster come out fully transparent. *)
Theorem applyRoundedCorners_corner_pixels (data : Buf.t) width height r :
  0 < r → 0 < width → 0 < height → exactRange width height r →
  rgba8 data width height →
  alpha (Double.applyRoundedCorners data width height (Double.number r)) width 0 0
  = Some x00
  ∧ alpha (Double.applyRoundedCorners data width height (Double.number r))
          width (width - 1) 0 = Some x00
  ∧ alpha (Double.applyRoundedCorners data width height (Double.number r))
          width 0 (height - 1) = Some x00
  ∧ alpha (Double.applyRoundedCorners data width height (Double.number r))
          width (width - 1) (height - 1) = Some x00.
Proof.
  intros Hr Hw Hh Hrange Hlen.
  rewrite (MaskOnDoubles.applyRoundedCorners_on_doubles data width height r Hrange).
  assert (Hcut : ∀ x y, onGrid width height x y →
            shouldBeTransparent width height r x y = true →
            alpha (applyRoundedCorners data width height r) width x y = Some x00).
  { intros x y Hg Ht. rewrite alpha_applyRoundedCorners, Ht by (done || lia).
    by destruct (alpha_defined data width height x y Hlen Hg) as [a ->]. }
  repeat split; apply Hcut; try (unfold onGrid; lia);
    apply shouldBeTransparent_outsideArc.
  - exists TopLeft. unfold inSquare, dist2; simpl. nia.
  - exists TopRight. unfold inSquare, dist2; simpl. nia.
  - exists BottomLeft. unfold inSquare, dist2; simpl. nia.
  - exists BottomRight. unfold inSquare, dist2; simpl. nia.
Qed.

(** X4: with radius 1 nothing but the four corner pixels changes. *)
Theorem applyRoundedCorners_radius_one (data : Buf.t) width height x y :
  onGrid width height x y →
  ¬ ((x = 0 ∨ x = width - 1) ∧ (y = 0 ∨ y = height - 1)) →
  alpha (applyRoundedCorners data width height 1) width x y = alpha data width x y.
Proof.
  intros Hg Hnot. rewrite alpha_applyRoundedCorners by done.
  destruct (shouldBeTransparent width height 1 x y) eqn:Ht; [|done].
  exfalso. apply Hnot.
  apply shouldBeTransparent_outsideArc in Ht as [c [Hin _]].
  destruct Hg as [Hx Hy]. destruct c; unfold inSquare in Hin; lia.
Qed.

(** ** Radii *)

Lemma Math_round_nonneg (q : Q) : (0 <= q)%Q → 0 <= Math_round q.
Proof.
  intros Hq. unfold Math_round.
  change 0 with (Qfloor 0). apply Qfloor_resp_le.
  apply Qle_trans with q; [done|].
  rewrite <- (Qplus_0_r q) at 1. apply Qplus_le_r. discriminate.
Qed.

Lemma scaledRadius_nonneg (radius : Q) (base tw th : Z) :
  (0 <= radius)%Q → 0 < base → 0 <= tw → 0 <= th →
  0 <= scaledRadius radius base tw th.
Proof.
  intros Hr Hb Htw Hth. unfold scaledRadius. apply Math_round_nonneg.
  apply Qmult_le_0_compat; [done|].
  unfold Qdiv. apply Qmult_le_0_compat.
  - change 0%Q with (inject_Z 0). rewrite <- Zle_Qle. lia.
  - apply Qinv_le_0_compat. change 0%Q with (inject_Z 0). rewrite <- Zle_Qle. lia.
Qed.

(** X5: whatever the radius field holds, the handler works with a finite
    radius between 0 and 256; a negative number, and negative infinity,
    give 0. *)
Theorem radiusOf_range (StringToNumber : string → JSNumber) (fd : FormData) :
  ((0 <= radiusOf StringToNumber fd)%Q ∧ (radiusOf StringToNumber fd <= 256)%Q)
  ∧ (∃ q, clampRadius (Number_ StringToNumber (fd_radius fd)) = Finite q)
  ∧ (∀ q, (q < 0)%Q → clampRadius (Finite q) = Finite 0)
  ∧ clampRadius NegInfinity = Finite 0.
Proof.
  unfold radiusOf.
  destruct (clampRadius_finite (Number_ StringToNumber (fd_radius fd)))
    as (q & Hq & H0 & H256).
  rewrite Hq; simpl. repeat split; eauto.
  intros q' Hneg. rewrite clampRadius_cases.
  assert (Hnz : Qeq_bool q' 0 = false).
  { apply not_true_is_false. intros H. apply Qeq_bool_iff in H.
    rewrite H in Hneg. discriminate Hneg. }
  assert (H1 : Qle_bool 256 q' = false).
  { apply not_true_is_false. intros H. apply Qle_bool_iff in H.
    apply (Qlt_irrefl 0). apply Qle_lt_trans with q'; [|done].
    apply Qle_trans with 256%Q; [discriminate | done]. }
  assert (H2 : Qle_bool 0 q' = false).
  { apply not_true_is_false. intros H. apply Qle_bool_iff in H.
    apply (Qlt_irrefl 0). by apply Qle_lt_trans with q'. }
  rewrite Hnz, H1. cbv zeta iota. by rewrite H2.
Qed.

(** X6: for every request, source and variant, the radius handed to
    [applyRoundedCorners] lies between 0 and half the shorter side of the
    resized raster, so that no pixel of the raster lies in two corner
    squares. *)
Theorem mask_radius_range (n : JSNumber) (width height : option N)
    (targetWidth targetHeight infoWidth infoHeight : Z) :
  0 <= targetWidth → 0 <= targetHeight → 0 <= infoWidth → 0 <= infoHeight →
  0 <= effectiveRadius (valueOf (clampRadius n)) (previewBaseSize width height)
                       targetWidth targetHeight infoWidth infoHeight
    <= Z.min infoWidth infoHeight / 2
  ∧ (∀ x y c c',
       inSquare c infoWidth infoHeight
         (effectiveRadius (valueOf (clampRadius n)) (previewBaseSize width height)
                          targetWidth targetHeight infoWidth infoHeight) x y →
       inSquare c' infoWidth infoHeight
         (effectiveRadius (valueOf (clampRadius n)) (previewBaseSize width height)
                          targetWidth targetHeight infoWidth infoHeight) x y →
       c = c').
Proof.
  intros Htw Hth Hiw Hih.
  assert (Hrange :
    0 <= effectiveRadius (valueOf (clampRadius n)) (previewBaseSize width height)
                         targetWidth targetHeight infoWidth infoHeight
      <= Z.min infoWidth infoHeight / 2).
  { unfold effectiveRadius. rewrite Math_floor_half.
    pose proof (scaledRadius_nonneg (valueOf (clampRadius n))
                  (previewBaseSize width height) targetWidth targetHeight
                  (radius_nonneg n) (proj1 (previewBaseSize_range width height))
                  Htw Hth) as Hs.
    assert (0 <= Z.min infoWidth infoHeight / 2) by (apply Z.div_pos; lia).
    lia. }
  split; [exact Hrange|].
  intros x y c c'. apply corner_squares_disjoint. apply Hrange.
Qed.

(** X7: for an integer request [r >= 0], reference size [b] and side [s],
    the variant gets radius 0, and so goes through the mask unchanged,
    exactly when [2 * r * s < b] or the side is below 2. *)
Theorem unmasked_variants (r b s : Z) (raw : Buf.t) :
  0 <= r → 0 < b → 0 <= s →
  (effectiveRadius (inject_Z r) b s s s s = 0 ↔ 2 * r * s < b ∨ s < 2)
  ∧ (2 * r * s < b ∨ s < 2 →
     applyRoundedCorners raw s s (effectiveRadius (inject_Z r) b s s s s) = raw).
Proof.
  intros Hr Hb Hs.
  assert (Hiff : effectiveRadius (inject_Z r) b s s s s = 0 ↔ 2 * r * s < b ∨ s < 2).
  { unfold effectiveRadius.
    rewrite scaledRadius_integer, Math_floor_half, Z.min_id by done.
    assert (Hn : 0 <= 2 * r * s) by nia.
    assert (Hscaled : (2 * r * s + b) / (2 * b) = 0 ↔ 2 * r * s < b).
    { rewrite Z.div_small_iff by lia. lia. }
    assert (Hhalf : s / 2 = 0 ↔ s < 2).
    { rewrite Z.div_small_iff by lia. lia. }
    assert (0 <= (2 * r * s + b) / (2 * b)) by (apply Z.div_pos; lia).
    assert (0 <= s / 2) by (apply Z.div_pos; lia).
    lia. }
  split; [exact Hiff|].
  intros H. apply Hiff in H. by rewrite H.
Qed.

(** X8: for a source of at least 192 pixels on both sides and an integer
    request [r] in 1..256, the 192x192 icon is masked with [r] itself,
    capped at 96; the same value comes out of the arithmetic on
    doubles. *)
Theorem reference_variant_radius (width height : N) (r : Z) :
  (192 <= width)%N → (192 <= height)%N → 1 <= r <= 256 →
  previewBaseSize (Some width) (Some height) = 192
  ∧ effectiveRadius (valueOf (clampRadius (Finite (inject_Z r))))
                    (previewBaseSize (Some width) (Some height)) 192 192 192 192
    = Z.min r 96
  ∧ Uint63.to_Z (Double.effectiveRadius (Uint63.of_Z r) (Uint63.of_Z 192)
                                        (Uint63.of_Z 192))
    = Z.min r 96.
Proof.
  intros Hw Hh Hr.
  assert (Hbase : previewBaseSize (Some width) (Some height) = 192).
  { unfold previewBaseSize, orDefault.
    destruct (N.eqb_spec width 0), (N.eqb_spec height 0); lia. }
  assert (Hexact : effectiveRadius (inject_Z r) 192 192 192 192 192 = Z.min r 96).
  { unfold effectiveRadius.
    rewrite scaledRadius_integer, Math_floor_half by lia.
    replace (2 * r * 192 + 192) with (r * (2 * 192) + 192) by lia.
    rewrite Z.div_add_l by lia.
    change (192 / (2 * 192)) with 0. change (Z.min 192 192 / 2) with 96.
    by rewrite Z.add_0_r. }
  assert (Hclamp : clampRadius (Finite (inject_Z r)) = Finite (inject_Z r)).
  { rewrite clampRadius_cases.
    assert (H0 : Qeq_bool (inject_Z r) 0 = false).
    { apply not_true_is_false. intros H. apply Qeq_bool_iff in H.
      change 0%Q with (inject_Z 0) in H. rewrite inject_Z_injective in H. lia. }
    assert (H1 : Qle_bool 256 (inject_Z r) = true → 256 <= r).
    { rewrite Qle_bool_iff. change 256%Q with (inject_Z 256). by rewrite <- Zle_Qle. }
    assert (H2 : Qle_bool 0 (inject_Z r) = true).
    { rewrite Qle_bool_iff. change 0%Q with (inject_Z 0). rewrite <- Zle_Qle. lia. }
    rewrite H0. destruct (Qle_bool 256 (inject_Z r)) eqn:H256; simpl.
    - specialize (H1 eq_refl). assert (r = 256) as -> by lia. reflexivity.
    - by rewrite H2. }
  split; [exact Hbase|]. split.
  - rewrite Hbase, Hclamp. exact Hexact.
  - rewrite DoubleFacts.effectiveRadius_exact; [exact Hexact | lia | lia |].
    do 4 apply list_elem_of_further. apply list_elem_of_here.
Qed.

(** ** The handler *)

Section HandlerRuns.

Context (StringToNumber : string → JSNumber)
        (sharp_metadata : Buf.t → Result Metadata)
        (sharp_png : SharpInput → Result Buf.t)
        (sharp_resize_raw : Buf.t → Z → Z → Fit → Result Raw)
        (sharp_resize_png : Buf.t → Z → Z → Fit → Result Buf.t)
        (sharp_raw_png : Buf.t → Z → Z → Result Buf.t)
        (toIco : list Buf.t → Result Buf.t)
        (generateAsync : Zip → Result Buf.t)
        (manifestText : string → string → string → string)
        (readmeText : string → string → string → Q → Z → string → string)
        (localTime isoDate : string).

#[local] Abbreviation icon := (resizeAndApplyRoundedCorners sharp_resize_raw sharp_raw_png).
#[local] Abbreviation run :=
  (generate StringToNumber sharp_metadata sharp_png sharp_resize_raw sharp_resize_png
            sharp_raw_png toIco generateAsync manifestText readmeText localTime isoDate).
#[local] Abbreviation answer :=
  (POST StringToNumber sharp_metadata sharp_png sharp_resize_raw sharp_resize_png
        sharp_raw_png toIco generateAsync manifestText readmeText localTime isoDate).
#[local] Abbreviation radius_ fd := (radiusOf StringToNumber fd).
#[local] Abbreviation manifest_ fd :=
  (manifestText (orString (fd_appName fd) "My App") (orString (fd_shortName fd) "App")
                (orString (fd_themeColor fd) "#6366f1")).
#[local] Abbreviation readme_ fd base :=
  (readmeText (orString (fd_appName fd) "My App") (orString (fd_shortName fd) "App")
              (orString (fd_themeColor fd) "#6366f1") (radius_ fd)
              (effectiveRadius (radius_ fd) base 512 512 512 512) localTime).
#[local] Abbreviation download_ :=
  (String.append "favicons-" (String.append isoDate ".zip")).

Ltac step H x Hx := apply bind_Ok in H as (x & Hx & H).

Ltac turns H :=
  repeat (let Hturn := fresh "Hturn" in
          apply for_of_cons in H as (? & Hturn & H);
          apply bind_Ok in Hturn as (? & ? & Hturn);
          injection Hturn as <-);
  apply for_of_nil in H; subst.

(** The radius the README shows for 512 pixels is the effective radius of
    a 512x512 raster. *)
Lemma display_radius (radius : Q) (base : Z) :
  Z.min (Math_round (radius * (512 / inject_Z base))) 256
  = effectiveRadius radius base 512 512 512 512.
Proof. unfold effectiveRadius, scaledRadius. by rewrite Math_floor_half. Qed.

(** A successful run, with the texts it stores. *)
Lemma run_Ok (fd : FormData) (file : File) (response : Response) :
  run fd file = Ok response →
  ∃ metadata base v16 v32 v48 v180 v192 v512 ogp ico body,
    let preview := previewBaseSize (md_width metadata) (md_height metadata) in
    sharp_metadata (file_bytes file) = Ok metadata
    ∧ sharp_png (sourceOf file) = Ok base
    ∧ (icon base (radius_ fd) preview 16 false = Ok v16
       ∧ icon base (radius_ fd) preview 32 false = Ok v32
       ∧ icon base (radius_ fd) preview 48 false = Ok v48
       ∧ icon base (radius_ fd) preview 180 false = Ok v180
       ∧ icon base (radius_ fd) preview 192 false = Ok v192
       ∧ icon base (radius_ fd) preview 512 false = Ok v512)
    ∧ sharp_resize_png base 1200 630 (Contain transparent) = Ok ogp
    ∧ toIco [v16; v32; v48] = Ok ico
    ∧ response = ZipResponse
                   (archiveOf v16 v32 v48 v180 v192 v512 ogp ico
                              (manifest_ fd) (readme_ fd preview))
                   body download_.
Proof.
  unfold generate. intros H.
  step H metadata Hmd. step H base Hbase.
  step H zip1 Hpub. step H zip2 Happ.
  step H icos Hico. step H ico Htoico. step H body Hbody.
  injection H as <-.
  unfold PUBLIC_SIZES in Hpub. turns Hpub.
  unfold APP_SIZES in Happ. turns Happ.
  unfold ICO_SIZES in Hico. turns Hico.
  repeat match goal with
         | H1 : ?call = Ok ?a, H2 : ?call = Ok ?b |- _ =>
             rewrite H1 in H2; injection H2 as <-
         end.
  do 11 eexists. cbv zeta.
  repeat match goal with |- _ ∧ _ => split end; try eassumption.
  rewrite <- display_radius. reflexivity.
Qed.

(** X9: on a request that passes the checks, when every call of sharp,
    to-ico and JSZip returns normally, the handler answers with the
    archive of the thirteen files and the download name
    favicons-<date>.zip. *)
Theorem POST_succeeds (fd : FormData) (file : File) (metadata : Metadata)
    (base v16 v32 v48 v180 v192 v512 ogp ico body : Buf.t) :
  validate (fd_image fd) = inr file →
  sharp_metadata (file_bytes file) = Ok metadata →
  sharp_png (sourceOf file) = Ok base →
  icon base (radius_ fd) (previewBaseSize (md_width metadata) (md_height metadata))
       16 false = Ok v16 →
  icon base (radius_ fd) (previewBaseSize (md_width metadata) (md_height metadata))
       32 false = Ok v32 →
  icon base (radius_ fd) (previewBaseSize (md_width metadata) (md_height metadata))
       48 false = Ok v48 →
  icon base (radius_ fd) (previewBaseSize (md_width metadata) (md_height metadata))
       180 false = Ok v180 →
  icon base (radius_ fd) (previewBaseSize (md_width metadata) (md_height metadata))
       192 false = Ok v192 →
  icon base (radius_ fd) (previewBaseSize (md_width metadata) (md_height metadata))
       512 false = Ok v512 →
  sharp_resize_png base 1200 630 (Contain transparent) = Ok ogp →
  toIco [v16; v32; v48] = Ok ico →
  generateAsync
    (archiveOf v16 v32 v48 v180 v192 v512 ogp ico (manifest_ fd)
       (readme_ fd (previewBaseSize (md_width metadata) (md_height metadata))))
  = Ok body →
  answer (Ok fd)
  = ZipResponse
      (archiveOf v16 v32 v48 v180 v192 v512 ogp ico (manifest_ fd)
         (readme_ fd (previewBaseSize (md_width metadata) (md_height metadata))))
      body download_
  ∧ (archiveOf v16 v32 v48 v180 v192 v512 ogp ico (manifest_ fd)
       (readme_ fd (previewBaseSize (md_width metadata) (md_height metadata)))).*1
    = fullSet.
Proof.
  intros Hv Hmd Hbase H16 H32 H48 H180 H192 H512 Hogp Hico Hbody.
  split; [|reflexivity].
  rewrite <- display_radius in Hbody |- *.
  rewrite POST_Ok, Hv. unfold generate.
  repeat (progress (unfold publicStep, appStep, icoStep;
                    rewrite ?Hmd, ?Hbase, ?H16, ?H32, ?H48, ?H180, ?H192, ?H512,
                      ?Hogp, ?Hico);
          cbn -[resizeAndApplyRoundedCorners Math_round previewBaseSize]).
  match goal with
  | |- context [generateAsync ?zip] =>
      replace (generateAsync zip) with (@Ok Buf.t body) by (symmetry; exact Hbody)
  end.
  reflexivity.
Qed.

Lemma answer_archive (fd : FormData) (zip : Zip) (body : Buf.t) (name : string) :
  answer (Ok fd) = ZipResponse zip body name →
  ∃ file, validate (fd_image fd) = inr file
          ∧ run fd file = Ok (ZipResponse zip body name).
Proof.
  rewrite POST_Ok. intros H.
  destruct (validate (fd_image fd)) as [response|file] eqn:Hv.
  { apply validate_inl in Hv as [msg ->]. discriminate H. }
  exists file. split; [done|].
  destruct (run fd file) as [response|e]; [by subst | discriminate H].
Qed.

(** X10: in an archive the handler returns, the README is written with
    the requested radius and, as the radius for 512 pixels, with exactly
    the effective radius of a 512x512 raster, the one the 512x512 icon is
    masked with; manifest and README get the app name, short name and
    theme colour of the form through [orString], that is with My App, App
    and #6366f1 in place of an absent or empty field; the download is
    named favicons-<date>.zip. *)
Theorem archive_texts (fd : FormData) (zip : Zip) (body : Buf.t) (name : string) :
  answer (Ok fd) = ZipResponse zip body name →
  ∃ file metadata,
    validate (fd_image fd) = inr file
    ∧ sharp_metadata (file_bytes file) = Ok metadata
    ∧ zip_lookup zip "README.txt"
      = Some (Text (readmeText
                      (orString (fd_appName fd) "My App")
                      (orString (fd_shortName fd) "App")
                      (orString (fd_themeColor fd) "#6366f1")
                      (radiusOf StringToNumber fd)
                      (effectiveRadius (radiusOf StringToNumber fd)
                         (previewBaseSize (md_width metadata) (md_height metadata))
                         512 512 512 512)
                      localTime))
    ∧ zip_lookup zip "public/site.webmanifest"
      = Some (Text (manifestText
                      (orString (fd_appName fd) "My App")
                      (orString (fd_shortName fd) "App")
                      (orString (fd_themeColor fd) "#6366f1")))
    ∧ name = String.append "favicons-" (String.append isoDate ".zip").
Proof.
  intros H. apply answer_archive in H as (file & Hv & H).
  apply run_Ok in H
    as (metadata & base & v16 & v32 & v48 & v180 & v192 & v512 & ogp & ico & body'
        & Hmd & _ & _ & _ & _ & [= -> -> ->]).
  exists file, metadata. repeat split; auto.
Qed.

(** X11: in an archive the handler returns, favicon.ico is what to-ico
    builds from three images, in this order: the results of
    [resizeAndApplyRoundedCorners] for 16, 32 and 48 pixels, made from the
    same base image with the same radius and reference size as the PNG
    files.  The one container is stored twice, as public/favicon.ico and
    as src/app/favicon.ico. *)
Theorem favicon_ico_contents (fd : FormData) (zip : Zip) (body : Buf.t)
    (name : string) :
  answer (Ok fd) = ZipResponse zip body name →
  ∃ file metadata base v16 v32 v48 ico,
    validate (fd_image fd) = inr file
    ∧ sharp_metadata (file_bytes file) = Ok metadata
    ∧ sharp_png (sourceOf file) = Ok base
    ∧ icon base (radius_ fd) (previewBaseSize (md_width metadata) (md_height metadata))
           16 false = Ok v16
    ∧ icon base (radius_ fd) (previewBaseSize (md_width metadata) (md_height metadata))
           32 false = Ok v32
    ∧ icon base (radius_ fd) (previewBaseSize (md_width metadata) (md_height metadata))
           48 false = Ok v48
    ∧ toIco [v16; v32; v48] = Ok ico
    ∧ zip_lookup zip "public/favicon.ico" = Some (Binary ico)
    ∧ zip_lookup zip "src/app/favicon.ico" = Some (Binary ico).
Proof.
  intros H. apply answer_archive in H as (file & Hv & H).
  apply run_Ok in H
    as (metadata & base & v16 & v32 & v48 & v180 & v192 & v512 & ogp & ico & body'
        & Hmd & Hbase & (H16 & H32 & H48 & _) & _ & Hico & [= -> -> ->]).
  exists file, metadata, base, v16, v32, v48, ico.
  repeat match goal with |- _ ∧ _ => split end; auto.
Qed.

(** X12: a form without an image is answered with status 400 and the
    message asking for a file; a file above 10 MiB with the size message,
    also when its type is not accepted either; a file of accepted size
    and another type with the type message; and a form that cannot be
    read with status 500 and the message of what was thrown, or the
    general failure message when that is no [Error]. *)
Theorem POST_rejections :
  (∀ fd, fd_image fd = None → answer (Ok fd) = JsonResponse 400 msgNoFile)
  ∧ (∀ fd file, fd_image fd = Some file →
       (10 * 1024 * 1024 < file_size file)%N →
       answer (Ok fd) = JsonResponse 400 msgTooLarge)
  ∧ (∀ fd file, fd_image fd = Some file →
       (file_size file <= 10 * 1024 * 1024)%N →
       file_type file ∉ validTypes →
       answer (Ok fd) = JsonResponse 400 msgBadType)
  ∧ (∀ message, answer (Throw (ErrorObject message)) = JsonResponse 500 message)
  ∧ answer (Throw OtherValue) = JsonResponse 500 msgFailed.
Proof.
  split; [|split; [|split; [|split]]]; try reflexivity.
  - intros fd Himg. by rewrite POST_Ok, Himg.
  - intros fd file Himg Hbig. rewrite POST_Ok, Himg, validate_cases.
    change (10 * 1024 * 1024)%N with MAX_FILE_SIZE in Hbig.
    apply N.ltb_lt in Hbig. by rewrite Hbig.
  - intros fd file Himg Hsz Hty. rewrite POST_Ok, Himg, validate_cases.
    change (10 * 1024 * 1024)%N with MAX_FILE_SIZE in Hsz.
    apply N.ltb_ge in Hsz. rewrite Hsz.
    destruct (includes validTypes (file_type file)) eqn:Hinc; [|done].
    exfalso. apply Hty. unfold includes in Hinc.
    apply existsb_exists in Hinc as (s & Hin & He).
    apply String.eqb_eq in He. subst s. by apply list_elem_of_In.
Qed.

End HandlerRuns.

(** ** The page *)

Section PageFacts.

Context (readAsDataURL : File → string)
        (NumberToString : Z → string)
        (fetch : FormData → Result Response)
        (json : Response → Result string)
        (blob : Response → Result Buf.t)
        (download : Buf.t → Result ()).

#[local] Abbreviation handleFile' := (Page.handleFile readAsDataURL).
#[local] Abbreviation formDataOf' := (Page.formDataOf NumberToString).
#[local] Abbreviation handleGenerate' :=
  (Page.handleGenerate NumberToString fetch json blob download).

Lemma page_checks (f : File) :
  validate (Some f) = inr f
  ↔ includes Page.validTypes (file_type f) = true
    ∧ (Page.MAX_FILE_SIZE <? file_size f)%N = false.
Proof.
  rewrite validate_cases.
  change Page.validTypes with validTypes. change Page.MAX_FILE_SIZE with MAX_FILE_SIZE.
  destruct (MAX_FILE_SIZE <? file_size f)%N, (includes validTypes (file_type f));
    split; intros H; try discriminate; try done; destruct H; discriminate.
Qed.

(** X13: the page accepts exactly the files the handler's checks accept.
    An accepted file becomes the file of the state, with its preview and
    without error; a refused one leaves file and preview as they were and
    sets an error.  Either way a snippet generated before is cleared. *)
Theorem handleFile_agrees (f : File) (st : Page.State) :
  (validate (Some f) = inr f →
     Page.file (handleFile' f st) = Some f
     ∧ Page.preview (handleFile' f st) = Some (readAsDataURL f)
     ∧ Page.error (handleFile' f st) = None)
  ∧ (validate (Some f) ≠ inr f →
     Page.file (handleFile' f st) = Page.file st
     ∧ Page.preview (handleFile' f st) = Page.preview st
     ∧ (Page.error (handleFile' f st) = Some Page.msgSelectType
        ∨ Page.error (handleFile' f st) = Some Page.msgTooLarge))
  ∧ Page.generatedCode (handleFile' f st) = None.
Proof.
  pose proof (page_checks f) as Hchk. unfold Page.handleFile.
  destruct (includes Page.validTypes (file_type f)) eqn:Hty;
    destruct (Page.MAX_FILE_SIZE <? file_size f)%N eqn:Hsz; simpl;
    (split; [|split; [|reflexivity]]); intros Hv;
    try (apply Hchk in Hv as [? ?]; discriminate);
    try (exfalso; apply Hv, Hchk; done);
    auto.
Qed.

(** X14: [handleGenerate] does nothing without a file.  With one, it ends
    with [isGenerating] off; when the answer has an error status the page
    shows the answer's error text, or the general text when that is
    empty, and keeps the snippets it had; when the request itself fails
    it shows what was thrown; when the answer is good and the download
    went through, the error is cleared and the two snippets are set from
    the theme colour and the app name. *)
Theorem handleGenerate_outcome (st : Page.State) :
  (Page.file st = None → handleGenerate' st = st)
  ∧ (∀ image, Page.file st = Some image →
       Page.isGenerating (handleGenerate' st) = false
       ∧ Page.file (handleGenerate' st) = Some image
       ∧ (∀ response message,
            fetch (formDataOf' st image) = Ok response →
            Page.ok response = false → json response = Ok message →
            Page.error (handleGenerate' st)
            = Some (if String.eqb message "" then Page.msgGenerateFailed else message)
            ∧ Page.generatedCode (handleGenerate' st) = Page.generatedCode st)
       ∧ (∀ message,
            fetch (formDataOf' st image) = Throw (ErrorObject message) →
            Page.error (handleGenerate' st) = Some message
            ∧ Page.generatedCode (handleGenerate' st) = Page.generatedCode st)
       ∧ (∀ response zipped,
            fetch (formDataOf' st image) = Ok response →
            Page.ok response = true → blob response = Ok zipped →
            download zipped = Ok () →
            Page.error (handleGenerate' st) = None
            ∧ Page.generatedCode (handleGenerate' st)
              = Some {| Page.code_nextjs :=
                          Page.generateNextJsCode (Page.themeColor st) (Page.appName st);
                        Page.code_html := Page.generateHtmlTags (Page.themeColor st) |})).
Proof.
  split.
  - intros Hnone. unfold Page.handleGenerate. by rewrite Hnone.
  - intros image Himg. unfold Page.handleGenerate. rewrite Himg.
    split; [reflexivity|]. split.
    { unfold Page.requestArchive.
      destruct (fetch _) as [response|e]; simpl; [|done].
      destruct (Page.ok response); simpl.
      - destruct (blob response) as [z|e]; simpl; [|done].
        destruct (download z) as [[]|e]; simpl; done.
      - destruct (json response) as [m|e]; simpl; done. }
    split; [|split].
    + intros response message Hfetch Hok Hjson.
      unfold Page.requestArchive, Page.formDataOf in *. simpl in *.
      rewrite Hfetch; simpl. rewrite Hok; simpl. rewrite Hjson; simpl. done.
    + intros message Hfetch.
      unfold Page.requestArchive, Page.formDataOf in *. simpl in *.
      rewrite Hfetch; simpl. done.
    + intros response zipped Hfetch Hok Hblob Hdown.
      unfold Page.requestArchive, Page.formDataOf in *. simpl in *.
      rewrite Hfetch; simpl. rewrite Hok; simpl. rewrite Hblob; simpl.
      rewrite Hdown; simpl. done.
Qed.

End PageFacts.

(** ** The page and the handler together *)

(** X15: a file the page has accepted is never answered with status 400:
    whatever the other fields of the form hold, the handler either
    returns the archive or the one 500 response of a failed stage. *)
Theorem accepted_file_passes_checks
    (readAsDataURL : File → string) (NumberToString : Z → string)
    (StringToNumber : string → JSNumber)
    (sharp_metadata : Buf.t → Result Metadata)
    (sharp_png : SharpInput → Result Buf.t)
    (sharp_resize_raw : Buf.t → Z → Z → Fit → Result Raw)
    (sharp_resize_png : Buf.t → Z → Z → Fit → Result Buf.t)
    (sharp_raw_png : Buf.t → Z → Z → Result Buf.t)
    (toIco : list Buf.t → Result Buf.t)
    (generateAsync : Zip → Result Buf.t)
    (manifestText : string → string → string → string)
    (readmeText : string → string → string → Q → Z → string → string)
    (localTime isoDate : string)
    (f : File) (st0 st : Page.State) :
  Page.file (Page.handleFile readAsDataURL f (Page.handleReset st0)) = Some f →
  (∃ zip body name,
     POST StringToNumber sharp_metadata sharp_png sharp_resize_raw sharp_resize_png
          sharp_raw_png toIco generateAsync manifestText readmeText localTime isoDate
          (Ok (Page.formDataOf NumberToString st f))
     = ZipResponse zip body name)
  ∨ (∃ message,
       POST StringToNumber sharp_metadata sharp_png sharp_resize_raw sharp_resize_png
            sharp_raw_png toIco generateAsync manifestText readmeText localTime isoDate
            (Ok (Page.formDataOf NumberToString st f))
       = JsonResponse 500 message).
Proof.
  intros Hacc.
  assert (Hv : validate (Some f) = inr f).
  { apply page_checks. unfold Page.handleFile in Hacc.
    destruct (includes Page.validTypes (file_type f)); [|discriminate Hacc].
    destruct (Page.MAX_FILE_SIZE <? file_size f)%N; [discriminate Hacc | done]. }
  rewrite POST_Ok.
  change (fd_image (Page.formDataOf NumberToString st f)) with (Some f).
  rewrite Hv.
  match goal with |- context [match ?run with Ok _ => _ | Throw _ => _ end] =>
    destruct run as [response|e] eqn:Hrun
  end.
  - apply generate_Ok in Hrun
      as (? & ? & ? & ? & ? & ? & ? & ? & ? & ? & body & zip & name & _ & ->).
    left. eauto.
  - right. eauto.
Qed.

(** X16: every file the handler puts in the public folder of the archive
    is referred to, by its path under the site root, in the HTML tags the
    page generates, whatever the theme colour. *)
Theorem html_tags_cover_public_files (color : string) (path : string) :
  path ∈ fullSet → String.prefix "public/" path = true →
  Page.contains (String.append Page.dq
                   (String.append (string_drop 6 path) Page.dq))
                (Page.generateHtmlTags color) = true.
Proof.
  intros Hin Hpre. unfold fullSet in Hin.
  repeat (apply elem_of_cons in Hin as [->|Hin];
          [first [discriminate Hpre | vm_compute; reflexivity]|]).
  by apply elem_of_nil in Hin.
Qed.

(** * Further instances *)

(** X1 on an opaque 10x10 raster: radius 2 and then radius 5 is radius 5. *)
Lemma applyRoundedCorners_twice_witness :
  (0 <= 2 <= 5 ∧ exactRange 10 10 5)
  ∧ Double.applyRoundedCorners
      (Double.applyRoundedCorners (Sample.opaque 100) 10 10 (Double.number 2))
      10 10 (Double.number 5)
    = Double.applyRoundedCorners (Sample.opaque 100) 10 10 (Double.number 5).
Proof.
  assert (H : 0 <= 2 <= 5) by lia.
  assert (Hrange : exactRange 10 10 5)
    by (unfold exactRange; change (2 ^ 25) with 33554432; lia).
  split; [auto|].
  exact (proj1 (applyRoundedCorners_twice (Sample.opaque 100) 10 10 2 5 H Hrange)).
Defined.


(** X3 on an opaque 4x4 raster with radius 2. *)
Lemma applyRoundedCorners_corner_pixels_witness :
  (0 < 2 ∧ 0 < 4 ∧ exactRange 4 4 2 ∧ rgba8 (Sample.opaque 16) 4 4)
  ∧ alpha (Double.applyRoundedCorners (Sample.opaque 16) 4 4 (Double.number 2)) 4 0 0
    = Some x00.
Proof.
  assert (Hr : 0 < 2) by lia. assert (Hw : 0 < 4) by lia.
  assert (Hrange : exactRange 4 4 2)
    by (unfold exactRange; change (2 ^ 25) with 33554432; lia).
  assert (Hlen : rgba8 (Sample.opaque 16) 4 4) by reflexivity.
  split; [auto|].
  exact (proj1 (applyRoundedCorners_corner_pixels (Sample.opaque 16) 4 4 2
                  Hr Hw Hw Hrange Hlen)).
Defined.

(** X4 on an opaque 4x4 raster: the edge pixel (1, 0) is kept. *)
Lemma applyRoundedCorners_radius_one_witness :
  onGrid 4 4 1 0
  ∧ alpha (applyRoundedCorners (Sample.opaque 16) 4 4 1) 4 1 0
    = alpha (Sample.opaque 16) 4 1 0.
Proof.
  assert (Hg : onGrid 4 4 1 0) by (unfold onGrid; lia).
  split; [exact Hg|].
  apply (applyRoundedCorners_radius_one (Sample.opaque 16) 4 4 1 0 Hg). lia.
Defined.

(** X6 for the request 40 on a 512x512 source and the 32x32 variant. *)
Lemma mask_radius_range_witness :
  0 <= 32
  ∧ 0 <= effectiveRadius (valueOf (clampRadius (Finite 40)))
                         (previewBaseSize (Some 512%N) (Some 512%N)) 32 32 32 32
      <= Z.min 32 32 / 2.
Proof.
  assert (H : 0 <= 32) by lia.
  split; [exact H|].
  exact (proj1 (mask_radius_range (Finite 40) (Some 512%N) (Some 512%N)
                  32 32 32 32 H H H H)).
Defined.

(** X7 for the request 5 with reference size 192: the 16x16 variant gets
    radius 0. *)
Lemma unmasked_variants_witness :
  (0 <= 5 ∧ 0 < 192 ∧ 0 <= 16)
  ∧ effectiveRadius (inject_Z 5) 192 16 16 16 16 = 0.
Proof.
  assert (Hr : 0 <= 5) by lia. assert (Hb : 0 < 192) by lia.
  assert (Hs : 0 <= 16) by lia.
  split; [auto|].
  apply (unmasked_variants 5 192 16 [] Hr Hb Hs). left. lia.
Defined.

(** X8 for a 512x512 source and the request 40. *)
Lemma reference_variant_radius_witness :
  ((192 <= 512)%N ∧ 1 <= 40 <= 256)
  ∧ effectiveRadius (valueOf (clampRadius (Finite (inject_Z 40))))
                    (previewBaseSize (Some 512%N) (Some 512%N)) 192 192 192 192
    = Z.min 40 96.
Proof.
  assert (Hw : (192 <= 512)%N) by lia. assert (Hr : 1 <= 40 <= 256) by lia.
  split; [auto|].
  exact (proj1 (proj2 (reference_variant_radius 512 512 40 Hw Hw Hr))).
Defined.

(** X9 on the sample library. *)
Lemma POST_succeeds_witness :
  validate (fd_image (Sample.form Sample.pngFile)) = inr Sample.pngFile
  ∧ POST Sample.number Sample.metadata Sample.png Sample.resize_raw
         Sample.resize_png Sample.raw_png Sample.ico Sample.zipped
         Sample.manifest Sample.readme "12:00:00" "2025-01-01"
         (Ok (Sample.form Sample.pngFile))
    = ZipResponse (archiveOf [] [] [] [] [] [] [] [] "{}" "README") []
                  "favicons-2025-01-01.zip".
Proof.
  split; [reflexivity|].
  exact (proj1 (POST_succeeds Sample.number Sample.metadata Sample.png
                  Sample.resize_raw Sample.resize_png Sample.raw_png Sample.ico
                  Sample.zipped Sample.manifest Sample.readme "12:00:00" "2025-01-01"
                  (Sample.form Sample.pngFile) Sample.pngFile
                  {| md_width := Some 512%N; md_height := Some 512%N |}
                  [] [] [] [] [] [] [] [] [] [] eq_refl eq_refl eq_refl eq_refl
                  eq_refl eq_refl eq_refl eq_refl eq_refl eq_refl eq_refl eq_refl)).
Defined.

(** X10 on the sample library: the download carries the date. *)
Lemma archive_texts_witness :
  POST Sample.number Sample.metadata Sample.png Sample.resize_raw
       Sample.resize_png Sample.raw_png Sample.ico Sample.zipped
       Sample.manifest Sample.readme "12:00:00" "2025-01-01"
       (Ok (Sample.form Sample.pngFile))
  = ZipResponse (archiveOf [] [] [] [] [] [] [] [] "{}" "README") []
                "favicons-2025-01-01.zip"
  ∧ ∃ file metadata,
      validate (fd_image (Sample.form Sample.pngFile)) = inr file
      ∧ Sample.metadata (file_bytes file) = Ok metadata
      ∧ zip_lookup (archiveOf [] [] [] [] [] [] [] [] "{}" "README") "README.txt"
        = Some (Text "README").
Proof.
  assert (H : POST Sample.number Sample.metadata Sample.png Sample.resize_raw
                Sample.resize_png Sample.raw_png Sample.ico Sample.zipped
                Sample.manifest Sample.readme "12:00:00" "2025-01-01"
                (Ok (Sample.form Sample.pngFile))
              = ZipResponse (archiveOf [] [] [] [] [] [] [] [] "{}" "README") []
                            "favicons-2025-01-01.zip") by reflexivity.
  split; [exact H|].
  destruct (archive_texts Sample.number Sample.metadata Sample.png Sample.resize_raw
              Sample.resize_png Sample.raw_png Sample.ico Sample.zipped
              Sample.manifest Sample.readme "12:00:00" "2025-01-01"
              (Sample.form Sample.pngFile) _ _ _ H)
    as (file & metadata & Hv & Hmd & Hreadme & _).
  exists file, metadata. split; [exact Hv|]. split; [exact Hmd|]. exact Hreadme.
Defined.

(** X11 on the sample library: both folders hold the same favicon.ico. *)
Lemma favicon_ico_contents_witness :
  POST Sample.number Sample.metadata Sample.png Sample.resize_raw
       Sample.resize_png Sample.raw_png Sample.ico Sample.zipped
       Sample.manifest Sample.readme "12:00:00" "2025-01-01"
       (Ok (Sample.form Sample.pngFile))
  = ZipResponse (archiveOf [] [] [] [] [] [] [] [] "{}" "README") []
                "favicons-2025-01-01.zip"
  ∧ ∃ ico,
      zip_lookup (archiveOf [] [] [] [] [] [] [] [] "{}" "README") "public/favicon.ico"
      = Some (Binary ico)
      ∧ zip_lookup (archiveOf [] [] [] [] [] [] [] [] "{}" "README")
                   "src/app/favicon.ico"
        = Some (Binary ico).
Proof.
  assert (H : POST Sample.number Sample.metadata Sample.png Sample.resize_raw
                Sample.resize_png Sample.raw_png Sample.ico Sample.zipped
                Sample.manifest Sample.readme "12:00:00" "2025-01-01"
                (Ok (Sample.form Sample.pngFile))
              = ZipResponse (archiveOf [] [] [] [] [] [] [] [] "{}" "README") []
                            "favicons-2025-01-01.zip") by reflexivity.
  split; [exact H|].
  destruct (favicon_ico_contents Sample.number Sample.metadata Sample.png
              Sample.resize_raw Sample.resize_png Sample.raw_png Sample.ico
              Sample.zipped Sample.manifest Sample.readme "12:00:00" "2025-01-01"
              (Sample.form Sample.pngFile) _ _ _ H)
    as (file & metadata & base & v16 & v32 & v48 & ico & _ & _ & _ & _ & _ & _ & _
        & Hpublic & Happ).
  exists ico. split; [exact Hpublic | exact Happ].
Defined.

(** X15 on the sample library: a PNG the page accepts is not refused by the
    handler's checks. *)
Lemma accepted_file_passes_checks_witness :
  Page.file (Page.handleFile Demo.dataURL Sample.pngFile
               (Page.handleReset (Demo.state None)))
  = Some Sample.pngFile
  ∧ ((∃ zip body name,
        POST Sample.number Sample.metadata Sample.png Sample.resize_raw
             Sample.resize_png Sample.raw_png Sample.ico Sample.zipped
             Sample.manifest Sample.readme "12:00:00" "2025-01-01"
             (Ok (Page.formDataOf Demo.toString (Demo.state None) Sample.pngFile))
        = ZipResponse zip body name)
     ∨ (∃ message,
          POST Sample.number Sample.metadata Sample.png Sample.resize_raw
               Sample.resize_png Sample.raw_png Sample.ico Sample.zipped
               Sample.manifest Sample.readme "12:00:00" "2025-01-01"
               (Ok (Page.formDataOf Demo.toString (Demo.state None) Sample.pngFile))
          = JsonResponse 500 message)).
Proof.
  assert (H : Page.file (Page.handleFile Demo.dataURL Sample.pngFile
                           (Page.handleReset (Demo.state None)))
              = Some Sample.pngFile) by reflexivity.
  split; [exact H|].
  exact (accepted_file_passes_checks Demo.dataURL Demo.toString Sample.number
           Sample.metadata Sample.png Sample.resize_raw Sample.resize_png
           Sample.raw_png Sample.ico Sample.zipped Sample.manifest Sample.readme
           "12:00:00" "2025-01-01" Sample.pngFile (Demo.state None)
           (Demo.state None) H).
Defined.

(** X16 for the Apple touch icon. *)
Lemma html_tags_cover_public_files_witness :
  String.prefix "public/" "public/apple-touch-icon.png" = true
  ∧ Page.contains (String.append Page.dq
                     (String.append "/apple-touch-icon.png" Page.dq))
                  (Page.generateHtmlTags "#6366f1") = true.
Proof.
  split; [reflexivity|].
  apply (html_tags_cover_public_files "#6366f1" "public/apple-touch-icon.png").
  - unfold fullSet. rewrite !elem_of_cons. tauto.
  - reflexivity.
Defined.

(** X5 for the request -5. *)
Lemma radiusOf_range_witness :
  (-5 < 0)%Q ∧ clampRadius (Finite (-5)) = Finite 0.
Proof.
  destruct (radiusOf_range Sample.number (Sample.form Sample.pngFile))
    as (_ & _ & Hneg & _).
  split; [reflexivity|]. apply Hneg. reflexivity.
Defined.

(** X12 on the sample library: a PNG of 10 MiB and one byte. *)
Lemma POST_rejections_witness :
  (fd_image (Sample.form Sample.largeFile) = Some Sample.largeFile
   ∧ (10 * 1024 * 1024 < file_size Sample.largeFile)%N)
  ∧ POST Sample.number Sample.metadata Sample.png Sample.resize_raw
         Sample.resize_png Sample.raw_png Sample.ico Sample.zipped
         Sample.manifest Sample.readme "12:00:00" "2025-01-01"
         (Ok (Sample.form Sample.largeFile))
    = JsonResponse 400 msgTooLarge.
Proof.
  destruct (POST_rejections Sample.number Sample.metadata Sample.png
              Sample.resize_raw Sample.resize_png Sample.raw_png Sample.ico
              Sample.zipped Sample.manifest Sample.readme "12:00:00" "2025-01-01")
    as (_ & Hlarge & _).
  split; [split; reflexivity|].
  apply (Hlarge (Sample.form Sample.largeFile) Sample.largeFile); reflexivity.
Defined.

(** X13 for a small PNG. *)
Lemma handleFile_agrees_witness :
  validate (Some Sample.pngFile) = inr Sample.pngFile
  ∧ Page.file (Page.handleFile Demo.dataURL Sample.pngFile (Demo.state None))
    = Some Sample.pngFile.
Proof.
  destruct (handleFile_agrees Demo.dataURL Sample.pngFile (Demo.state None))
    as (Haccepted & _).
  split; [reflexivity|]. apply Haccepted. reflexivity.
Defined.

(** X14 with a server that refuses the request: the page shows the
    server's message. *)
Lemma handleGenerate_outcome_witness :
  (Page.file (Demo.state (Some Sample.pngFile)) = Some Sample.pngFile
   ∧ Page.ok (JsonResponse 500 "Input buffer contains unsupported image format")
     = false)
  ∧ Page.error (Page.handleGenerate Demo.toString Demo.refusing Demo.errorField
                  Demo.bytes Demo.save (Demo.state (Some Sample.pngFile)))
    = Some "Input buffer contains unsupported image format"%string.
Proof.
  destruct (handleGenerate_outcome Demo.toString Demo.refusing Demo.errorField
              Demo.bytes Demo.save (Demo.state (Some Sample.pngFile)))
    as (_ & Hfile).
  destruct (Hfile Sample.pngFile eq_refl) as (_ & _ & Hrefused & _).
  split; [split; reflexivity|].
  exact (proj1 (Hrefused _ _ eq_refl eq_refl eq_refl)).
Defined.
